(** * upagerduty: a shallow embedding of [upagerduty/__init__.py]

    The module is Python 3 code (it imports [urllib.request],
    [urllib.error] and [urllib.parse]), so the embedding follows the
    Python 3 reading of every operator and library call:

    - [a / b] on numbers is true division and yields a float, or raises
      [OverflowError] when an integer quotient is too large for one;
    - [range] accepts integers only and raises [TypeError] on a float;
    - [base64.encodestring] (the old alias of [base64.encodebytes]) accepts
      bytes-like objects only and raises [TypeError] on a [str];
    - a failed attribute or key lookup raises [AttributeError] or
      [KeyError].

    Values that travel through JSON are kept dynamically typed ([pyval]).
    An HTTP body is identified with what [json.loads] makes of it.  The
    network is a parameter [server] that answers each request from the
    history of requests seen so far; every call of [urlopen] is appended to
    that history, which is how round trips are counted. *)

From Stdlib Require Import ZArith QArith List String Ascii Bool Lia.
From Stdlib Require Import DecimalString.
Import ListNotations.

Set Warnings "-register-all".

Local Open Scope string_scope.
Local Open Scope Z_scope.

(** ** Python values *)

(** The values [json.loads] can produce.  A float is represented by the
    rational it denotes; the program never looks at a float's digits. *)
Inductive pyval : Type :=
| PNone
| PBool (b : bool)
| PInt (z : Z)
| PFloat (q : Q)
| PStr (s : string)
| PList (l : list pyval)
| PDict (d : list (string * pyval)).

(** A dict is an association list in insertion order; a key occurs once. *)
Definition dict := list (string * pyval).

Fixpoint dict_lookup {A} (d : list (string * A)) (k : string) : option A :=
  match d with
  | [] => None
  | (k', v) :: d' => if String.eqb k' k then Some v else dict_lookup d' k
  end.

(** [d[k] = v]: replaces the value of an existing key in place, otherwise
    appends the new key. *)
Fixpoint dict_set {A} (d : list (string * A)) (k : string) (v : A)
  : list (string * A) :=
  match d with
  | [] => [(k, v)]
  | (k', v') :: d' =>
      if String.eqb k' k then (k', v) :: d' else (k', v') :: dict_set d' k v
  end.

(** [d.update(other)] *)
Definition dict_update {A} (d other : list (string * A)) : list (string * A) :=
  fold_left (fun acc kv => dict_set acc (fst kv) (snd kv)) other d.

Definition dict_keys {A} (d : list (string * A)) : list string := map fst d.

Definition has_key {A} (d : list (string * A)) (k : string) : bool :=
  match dict_lookup d k with Some _ => true | None => false end.

(** ** HTTP objects *)

(** A response body, seen through [json.loads]. *)
Inductive body : Type :=
| Undecodable (raw : string)
| Decodable (v : pyval).

Definition header_list := list (string * string).

(** [urllib.error.HTTPError]: [filename] is the URL, [fp] the body. *)
Record HTTPError : Type := mkHTTPError {
  filename : string;
  code : Z;
  msg : string;
  hdrs : header_list;
  fp : body
}.

(** An instance of [SchedulesError] or [IncidentsError]: the fields of the
    [HTTPError] base class, and the three attributes the subclasses assign.
    [None] is an attribute that was never assigned. *)
Record ApiError : Type := mkApiError {
  http : HTTPError;
  statuscode : option pyval;
  statusdesc : option pyval;
  errormessage : option pyval
}.

(** What [urlopen] returns on success. *)
Record HTTPResponse : Type := mkHTTPResponse {
  resp_headers : header_list;
  resp_body : body
}.

(** [urllib.request.Request], and the arguments of a direct
    [urlopen(url, data, timeout)] call. *)
Record Request : Type := mkRequest {
  full_url : string;
  data : option pyval;
  headers : header_list;
  timeout : option Z
}.

(** ** Exceptions and results *)

Inductive exn : Type :=
| TypeError
| KeyError (k : string)
| AttributeError (attr : string)
| ValueError
| ZeroDivisionError
| OverflowError
| URLError
| HTTPErrorExn (e : HTTPError)
| SchedulesErrorExn (e : ApiError)
| IncidentsErrorExn (e : ApiError)
| PagerDutyException (status message errors : pyval).

Inductive res (A : Type) : Type :=
| Ok (a : A)
| Raise (e : exn).
Arguments Ok {A} a.
Arguments Raise {A} e.

Definition rbind {A B} (r : res A) (k : A -> res B) : res B :=
  match r with
  | Ok a => k a
  | Raise e => Raise e
  end.

Declare Scope res_scope.
Delimit Scope res_scope with res.
Notation "x <~ r ;; k" := (rbind r (fun x => k))
  (at level 61, r at next level, right associativity) : res_scope.

(** ** Library primitives on values *)

Definition json_loads (b : body) : res pyval :=
  match b with
  | Undecodable _ => Raise ValueError
  | Decodable v => Ok v
  end.

(** [v[k]] with a string key. *)
Definition py_getitem (v : pyval) (k : string) : res pyval :=
  match v with
  | PDict d =>
      match dict_lookup d k with
      | Some x => Ok x
      | None => Raise (KeyError k)
      end
  | _ => Raise TypeError
  end.

(** [v.get(k, default)] *)
Definition py_get (v : pyval) (k : string) (default : pyval) : res pyval :=
  match v with
  | PDict d =>
      match dict_lookup d k with
      | Some x => Ok x
      | None => Ok default
      end
  | _ => Raise (AttributeError "get")
  end.

Fixpoint chars (s : string) : list string :=
  match s with
  | EmptyString => []
  | String c s' => String c EmptyString :: chars s'
  end.

(** Iteration: a list gives its elements, a dict its keys, a str its
    characters; nothing else is iterable. *)
Definition py_iter (v : pyval) : res (list pyval) :=
  match v with
  | PList l => Ok l
  | PDict d => Ok (map PStr (dict_keys d))
  | PStr s => Ok (map PStr (chars s))
  | _ => Raise TypeError
  end.

Fixpoint all_str (l : list pyval) : res (list string) :=
  match l with
  | [] => Ok []
  | PStr s :: l' =>
      match all_str l' with
      | Ok ss => Ok (s :: ss)
      | Raise e => Raise e
      end
  | _ :: _ => Raise TypeError
  end.

(** [sep.join(v)] *)
Definition py_join (sep : string) (v : pyval) : res pyval :=
  (items <~ py_iter v ;;
   ss <~ all_str items ;;
   Ok (PStr (String.concat sep ss)))%res.

Fixpoint is_substring (fuel : nat) (needle hay : string) : bool :=
  if String.prefix needle hay then true
  else match fuel, hay with
       | S f, String _ hay' => is_substring f needle hay'
       | _, _ => false
       end.

Definition is_str (s : string) (v : pyval) : bool :=
  match v with
  | PStr t => String.eqb t s
  | _ => false
  end.

(** [k in v] for a string [k]. *)
Definition py_contains (k : string) (v : pyval) : res bool :=
  match v with
  | PDict d => Ok (has_key d k)
  | PList l => Ok (existsb (is_str k) l)
  | PStr s => Ok (is_substring (String.length s) k s)
  | _ => Raise TypeError
  end.

(** [v != s] for a string literal [s]. *)
Definition py_ne_str (v : pyval) (s : string) : bool := negb (is_str s v).

Definition is_none (v : pyval) : bool :=
  match v with
  | PNone => true
  | _ => false
  end.

(** ** Numbers *)

Definition Z_of_bool (b : bool) : Z := if b then 1 else 0.

(** [v > n] for an int [n]. *)
Definition py_gt (v : pyval) (n : Z) : res bool :=
  match v with
  | PBool b => Ok (n <? Z_of_bool b)
  | PInt z => Ok (n <? z)
  | PFloat q => Ok (negb (Qle_bool q (inject_Z n)))
  | _ => Raise TypeError
  end.

(** The least magnitude that does not round to a float any more: halfway
    between the largest float, [2^1024 - 2^971], and [2^1024]. *)
Definition float_overflow_bound : Z := 2 ^ 1024 - 2 ^ 970.

(** The int [n] has no float: [float(n)] raises [OverflowError]. *)
Definition int_too_large (n : Z) : bool := float_overflow_bound <=? Z.abs n.

(** The quotient of the ints [a] and [b] has no float. *)
Definition int_div_overflows (a b : Z) : bool :=
  float_overflow_bound * Z.abs b <=? Z.abs a.

Arguments float_overflow_bound : simpl never.
Arguments int_too_large : simpl never.
Arguments int_div_overflows : simpl never.

(** [v / n] for an int [n]: true division, the result is a float.  Two
    ints are divided exactly and the quotient is then rounded, which fails
    when it is too large; a float operand has [n] converted to a float
    first. *)
Definition py_truediv (v : pyval) (n : Z) : res pyval :=
  let int_div (z : Z) :=
    if n =? 0 then Raise ZeroDivisionError
    else if int_div_overflows z n then Raise OverflowError
    else Ok (PFloat (Qdiv (inject_Z z) (inject_Z n))) in
  match v with
  | PBool b => int_div (Z_of_bool b)
  | PInt z => int_div z
  | PFloat q =>
      if int_too_large n then Raise OverflowError
      else if n =? 0 then Raise ZeroDivisionError
      else Ok (PFloat (Qdiv q (inject_Z n)))
  | _ => Raise TypeError
  end.

(** [v + n] for an int [n]. *)
Definition py_add (v : pyval) (n : Z) : res pyval :=
  match v with
  | PBool b => Ok (PInt (Z_of_bool b + n))
  | PInt z => Ok (PInt (z + n))
  | PFloat q =>
      if int_too_large n then Raise OverflowError
      else Ok (PFloat (Qplus q (inject_Z n)))
  | _ => Raise TypeError
  end.

Definition Z_range (lo hi : Z) : list Z :=
  map (fun i => lo + Z.of_nat i) (seq 0 (Z.to_nat (hi - lo))).

(** [range(lo, v)]: the bound must be an integer. *)
Definition py_range (lo : Z) (v : pyval) : res (list Z) :=
  match v with
  | PBool b => Ok (Z_range lo (Z_of_bool b))
  | PInt z => Ok (Z_range lo z)
  | _ => Raise TypeError
  end.

(** ** Text, bytes and base64 *)

(** The two string types of Python 3.  Both carry 8-bit characters here;
    what matters is which of the two a library function accepts. *)
Inductive strlike : Type :=
| Text (s : string)
| Bytes (b : string).

Definition newline : string := String (ascii_of_nat 10) EmptyString.

Definition b64_alphabet : string :=
  "ABCDEFGHIJKLMNOPQRSTUVWXYZabcdefghijklmnopqrstuvwxyz0123456789+/".

Definition b64_digit (n : N) : ascii :=
  match String.get (N.to_nat (n mod 64)) b64_alphabet with
  | Some c => c
  | None => "="%char
  end.

Definition b64_quad (n : N) (pad : nat) : string :=
  let d0 := b64_digit (n / 262144) in
  let d1 := b64_digit (n / 4096) in
  let d2 := b64_digit (n / 64) in
  let d3 := b64_digit n in
  match pad with
  | O => String d0 (String d1 (String d2 (String d3 EmptyString)))
  | S O => String d0 (String d1 (String d2 "="))
  | _ => String d0 (String d1 "==")
  end.

(** Three input bytes give four output characters, with [=] padding. *)
Fixpoint b64_groups (s : string) : string :=
  match s with
  | EmptyString => EmptyString
  | String a EmptyString =>
      b64_quad (N_of_ascii a * 65536) 2
  | String a (String b EmptyString) =>
      b64_quad (N_of_ascii a * 65536 + N_of_ascii b * 256) 1
  | String a (String b (String c rest)) =>
      b64_quad (N_of_ascii a * 65536 + N_of_ascii b * 256 + N_of_ascii c) 0
      ++ b64_groups rest
  end.

(** [base64.encodebytes]: each chunk of 57 bytes becomes one line of 76
    characters followed by a newline. *)
Fixpoint b64_lines (fuel : nat) (s : string) : string :=
  match fuel, s with
  | _, EmptyString => EmptyString
  | O, _ => EmptyString
  | S f, _ =>
      b64_groups (String.substring 0 57 s) ++ newline
      ++ b64_lines f (String.substring 57 (String.length s - 57) s)
  end.

(** [base64.encodestring(s)]: bytes in, bytes out; a [str] is rejected. *)
Definition base64_encodestring (s : strlike) : res strlike :=
  match s with
  | Bytes b => Ok (Bytes (b64_lines (String.length b) b))
  | Text _ => Raise TypeError
  end.

Fixpoint replace_text (fuel : nat) (old new s : string) : string :=
  match fuel, s with
  | S f, String c s' =>
      if String.prefix old s
      then new ++ replace_text f old new
                    (String.substring (String.length old)
                       (String.length s - String.length old) s)
      else String c (replace_text f old new s')
  | _, _ => s
  end.

(** [s.replace(old, new)] where [old] and [new] are [str] literals: a
    bytes receiver rejects them. *)
Definition py_replace (s : strlike) (old new : string) : res strlike :=
  match s with
  | Text t => Ok (Text (replace_text (String.length t) old new t))
  | Bytes _ => Raise TypeError
  end.

(** ["%s" % s]: a [str] is inserted as it is, bytes by their [repr]. *)
Definition format_s (s : strlike) : string :=
  match s with
  | Text t => t
  | Bytes b => "b'" ++ b ++ "'"
  end.

(** ** Query strings *)

(** The values the clients put into a query. *)
Inductive qval : Type :=
| QStr (s : string)
| QInt (z : Z)
| QBool (b : bool).

Definition qval_str (v : qval) : string :=
  match v with
  | QStr s => s
  | QInt z => NilZero.string_of_int (Z.to_int z)
  | QBool true => "True"
  | QBool false => "False"
  end.

Definition is_unreserved (c : ascii) : bool :=
  let n := nat_of_ascii c in
  ((48 <=? n) && (n <=? 57) || (65 <=? n) && (n <=? 90)
   || (97 <=? n) && (n <=? 122)
   || (n =? 95) || (n =? 46) || (n =? 45) || (n =? 126))%nat.

Definition hex_digit (n : nat) : ascii :=
  match String.get n "0123456789ABCDEF" with
  | Some c => c
  | None => "0"%char
  end.

(** [urllib.parse.quote_plus] *)
Fixpoint quote_plus (s : string) : string :=
  match s with
  | EmptyString => EmptyString
  | String c s' =>
      if is_unreserved c then String c (quote_plus s')
      else if Ascii.eqb c " "%char then String "+"%char (quote_plus s')
      else String "%"%char
             (String (hex_digit (nat_of_ascii c / 16))
                (String (hex_digit (nat_of_ascii c mod 16)) (quote_plus s')))
  end.

(** [urllib.parse.urlencode] of a dict *)
Definition urlencode (params : list (string * qval)) : string :=
  String.concat "&"
    (map (fun kv => quote_plus (fst kv) ++ "=" ++ quote_plus (qval_str (snd kv)))
       params).

(** ** Error classes *)

(** What a caller may hand to an error constructor: the [HTTPError] it
    caught, or any decoded value. *)
Inductive pyobj : Type :=
| ObjHTTPError (e : HTTPError)
| ObjValue (v : pyval).

(** [HTTPError.__init__(self, http_error.filename, http_error.code,
    http_error.msg, http_error.hdrs, http_error.fp)]: the first attribute
    read fails on a value that is no [HTTPError]. *)
Definition HTTPError_init_from (http_error : pyobj) : res HTTPError :=
  match http_error with
  | ObjHTTPError e => Ok (mkHTTPError (filename e) (code e) (msg e) (hdrs e) (fp e))
  | ObjValue _ => Raise (AttributeError "filename")
  end.

Definition set_statuscode (self : ApiError) (v : pyval) : ApiError :=
  mkApiError (http self) (Some v) (statusdesc self) (errormessage self).
Definition set_statusdesc (self : ApiError) (v : pyval) : ApiError :=
  mkApiError (http self) (statuscode self) (Some v) (errormessage self).
Definition set_errormessage (self : ApiError) (v : pyval) : ApiError :=
  mkApiError (http self) (statuscode self) (statusdesc self) (Some v).

(** The [try: ... except: pass] block shared by both error classes.  The
    three assignments happen one after the other; whatever raises ends the
    block and leaves the object as it is at that point. *)
Definition try_decode (self : ApiError) : ApiError :=
  match (j <~ json_loads (fp (http self)) ;;
         error <~ py_getitem j "error" ;;
         c <~ py_getitem error "code" ;;
         Ok (error, c))%res with
  | Raise _ => self
  | Ok (error, c) =>
      let self := set_statuscode self c in
      match (errors <~ py_get error "errors" (PList []) ;;
             py_join " | " errors)%res with
      | Raise _ => self
      | Ok d =>
          let self := set_statusdesc self d in
          match py_getitem error "message" with
          | Raise _ => self
          | Ok m => set_errormessage self m
          end
      end
  end.

(** [SchedulesError.__init__] *)
Definition SchedulesError_init (http_error : pyobj) : res ApiError :=
  (e <~ HTTPError_init_from http_error ;;
   Ok (try_decode (mkApiError e None None None)))%res.

(** [IncidentsError.__init__] *)
Definition IncidentsError_init (http_error : pyobj) : res ApiError :=
  (e <~ HTTPError_init_from http_error ;;
   let self := mkApiError e None None None in
   let self := set_statuscode self (PInt (code e)) in
   let self := set_statusdesc self (PStr (msg e)) in
   let self := set_errormessage self (PStr "") in
   Ok (try_decode self))%res.

(** ** Requests and responses of the Schedules and Incidents clients *)

(** What [SchedulesRequest] and [IncidentsRequest] read from their
    [connection] argument. *)
Record Connection : Type := mkConnection {
  username : string;
  password : string;
  base_url : string
}.

Definition Request_init (url : string) : Request := mkRequest url None [] None.

Definition add_header (self : Request) (key val : string) : Request :=
  mkRequest (full_url self) (data self) (dict_set (headers self) key val)
    (timeout self).

(** The two lines under [# Add auth header]. *)
Definition add_auth_header (self : Request) (connection : Connection)
  : res Request :=
  (encoded <~ base64_encodestring
                (Text (username connection ++ ":" ++ password connection)) ;;
   base64string <~ py_replace encoded newline "" ;;
   Ok (add_header self "Authorization" ("Basic " ++ format_s base64string)))%res.

(** [SchedulesRequest.__init__] *)
Definition SchedulesRequest_init (connection : Connection) (resource : string)
    (params : list (string * qval)) : res Request :=
  let encoded_params := urlencode params in
  let url := base_url connection ++ resource ++ "?" ++ encoded_params in
  add_auth_header (Request_init url) connection.

(** [IncidentsRequest.__init__] *)
Definition IncidentsRequest_init (connection : Connection)
    (params : list (string * qval)) : res Request :=
  let encoded_params := urlencode params in
  let url := base_url connection ++ "?" ++ encoded_params in
  add_auth_header (Request_init url) connection.

(** A [SchedulesResponse] or [IncidentsResponse] object. *)
Record Response : Type := mkResponse {
  rsp_data : body;
  rsp_headers : header_list;
  content : pyval
}.

(** [SchedulesResponse.__init__] *)
Definition SchedulesResponse_init (response : HTTPResponse) : res Response :=
  let self_data := resp_body response in
  let self_headers := resp_headers response in
  (self_content <~ json_loads self_data ;;
   found <~ py_contains "error" self_content ;;
   if (found : bool)
   then (e <~ SchedulesError_init (ObjValue self_content) ;;
         Raise (SchedulesErrorExn e))
   else Ok (mkResponse self_data self_headers self_content))%res.

(** [IncidentsResponse.__init__] *)
Definition IncidentsResponse_init (response : HTTPResponse) : res Response :=
  let self_data := resp_body response in
  let self_headers := resp_headers response in
  (self_content <~ json_loads self_data ;;
   found <~ py_contains "error" self_content ;;
   if (found : bool)
   then (e <~ IncidentsError_init (ObjValue self_content) ;;
         Raise (IncidentsErrorExn e))
   else Ok (mkResponse self_data self_headers self_content))%res.

(** ** Effects: a world that is threaded through every call *)

Definition M (W A : Type) : Type := W -> res A * W.

Definition ret {W A} (a : A) : M W A := fun w => (Ok a, w).

Definition raise {W A} (e : exn) : M W A := fun w => (Raise e, w).

Definition bind {W A B} (m : M W A) (k : A -> M W B) : M W B :=
  fun w =>
    match m w with
    | (Ok a, w') => k a w'
    | (Raise e, w') => (Raise e, w')
    end.

Definition lift {W A} (r : res A) : M W A := fun w => (r, w).

Declare Scope io_scope.
Delimit Scope io_scope with io.
Notation "x <- m ;; k" := (bind m (fun x => k))
  (at level 61, m at next level, right associativity) : io_scope.

(** The world of the HTTP clients: the requests sent so far, oldest first. *)
Definition world := list Request.

(** What the network makes of one request. *)
Inductive urlopen_result : Type :=
| Responded (r : HTTPResponse)
| Refused (e : HTTPError)
| Unreachable.

Section Clients.

(** The remote side: its answer to a request, given the requests that
    came before. *)
Variable server : list Request -> Request -> urlopen_result.

(** [urllib.request.urlopen]: one round trip. *)
Definition urlopen (r : Request) : M world HTTPResponse :=
  fun w =>
    (match server w r with
     | Responded x => Ok x
     | Refused e => Raise (HTTPErrorExn e)
     | Unreachable => Raise URLError
     end, (w ++ [r])%list).

(** [SchedulesRequest.fetch] *)
Definition SchedulesRequest_fetch (self : Request) : M world Response :=
  fun w =>
    match urlopen self w with
    | (Raise (HTTPErrorExn e), w') =>
        (match SchedulesError_init (ObjHTTPError e) with
         | Ok err => Raise (SchedulesErrorExn err)
         | Raise x => Raise x
         end, w')
    | (Raise x, w') => (Raise x, w')
    | (Ok response, w') => (SchedulesResponse_init response, w')
    end.

(** [IncidentsRequest.fetch] *)
Definition IncidentsRequest_fetch (self : Request) : M world Response :=
  fun w =>
    match urlopen self w with
    | (Raise (HTTPErrorExn e), w') =>
        (match IncidentsError_init (ObjHTTPError e) with
         | Ok err => Raise (IncidentsErrorExn err)
         | Raise x => Raise x
         end, w')
    | (Raise x, w') => (Raise x, w')
    | (Ok response, w') => (IncidentsResponse_init response, w')
    end.

(** *** Schedules *)

Definition Schedules_init (subdomain schedule_id user pass : string)
  : Connection :=
  mkConnection user pass
    ("https://" ++ subdomain ++ ".pagerduty.com/api/v1/schedules/"
     ++ schedule_id ++ "/").

(** [Schedules.entries] *)
Definition Schedules_entries (self : Connection) (since until : string)
    (overflow : bool) : M world pyval :=
  let params := [("since", QStr since); ("until", QStr until)] in
  let params :=
    if overflow then dict_update params [("overflow", QBool true)]
    else params in
  (request <- lift (SchedulesRequest_init self "entries" params) ;;
   response <- SchedulesRequest_fetch request ;;
   lift (py_getitem (content response) "entries"))%io.

(** *** Events *)

Record PagerDuty : Type := mkPagerDuty {
  service_key : string;
  api_endpoint : string;
  pd_timeout : Z
}.

Definition PagerDuty_init (key : string) (https : bool) (t : Z) : PagerDuty :=
  mkPagerDuty key
    ((if https then "https" else "http")
     ++ "://events.pagerduty.com/generic/2010-04-15/create_event.json")
    t.

(** The loop [for k, v in kwargs.items(): if v is not None: event[k] = v]. *)
Definition add_fields (event : dict) (kwargs : list (string * pyval)) : dict :=
  fold_left
    (fun ev kv => if is_none (snd kv) then ev else dict_set ev (fst kv) (snd kv))
    kwargs event.

Definition build_event (self : PagerDuty) (event_type : string)
    (kwargs : list (string * pyval)) : dict :=
  add_fields
    [("service_key", PStr (service_key self));
     ("event_type", PStr event_type)]
    kwargs.

(** The [try: urlopen(...) except HTTPError] of [_request]: a 400 is kept
    as the response, everything else is raised again. *)
Definition post_event (self : PagerDuty) (encoded_event : pyval)
  : M world body :=
  fun w =>
    match urlopen (mkRequest (api_endpoint self) (Some encoded_event) []
                     (Some (pd_timeout self))) w with
    | (Raise (HTTPErrorExn exc), w') =>
        if negb (code exc =? 400) then (Raise (HTTPErrorExn exc), w')
        else (Ok (fp exc), w')
    | (Raise x, w') => (Raise x, w')
    | (Ok r, w') => (Ok (resp_body r), w')
    end.

(** The part of [_request] after the response has been read. *)
Definition interpret_result (result : pyval) : res pyval :=
  (status <~ py_getitem result "status" ;;
   if py_ne_str status "success"
   then (s <~ py_getitem result "status" ;;
         m <~ py_getitem result "message" ;;
         e <~ py_getitem result "errors" ;;
         Raise (PagerDutyException s m e))
   else py_get result "incident_key" PNone)%res.

(** [PagerDuty._request] *)
Definition PagerDuty_request (self : PagerDuty) (event_type : string)
    (kwargs : list (string * pyval)) : M world pyval :=
  let event := build_event self event_type kwargs in
  let encoded_event := PDict event in
  (res_body <- post_event self encoded_event ;;
   result <- lift (json_loads res_body) ;;
   lift (interpret_result result))%io.

Definition PagerDuty_trigger (self : PagerDuty)
    (description incident_key details : pyval) : M world pyval :=
  PagerDuty_request self "trigger"
    [("description", description); ("incident_key", incident_key);
     ("details", details)].

Definition PagerDuty_acknowledge (self : PagerDuty)
    (incident_key description details : pyval) : M world pyval :=
  PagerDuty_request self "acknowledge"
    [("description", description); ("incident_key", incident_key);
     ("details", details)].

Definition PagerDuty_resolve (self : PagerDuty)
    (incident_key description details : pyval) : M world pyval :=
  PagerDuty_request self "resolve"
    [("description", description); ("incident_key", incident_key);
     ("details", details)].

(** *** Incidents *)

Definition Incidents_init (subdomain user pass : string) : Connection :=
  mkConnection user pass
    ("https://" ++ subdomain ++ ".pagerduty.com/api/v1/incidents").

(** [Incidents._make_request] *)
Definition Incidents_make_request (self : Connection) (since until : string)
    (limit offset : Z) : M world (pyval * pyval) :=
  let params :=
    [("since", QStr since); ("until", QStr until);
     ("limit", QInt limit); ("offset", QInt offset)] in
  (request <- lift (IncidentsRequest_init self params) ;;
   response <- IncidentsRequest_fetch request ;;
   total <- lift (py_getitem (content response) "total") ;;
   incidents <- lift (py_getitem (content response) "incidents") ;;
   ret (total, incidents))%io.

End Clients.

(** ** The generator returned by [Incidents.all] *)

(** Where the body of [all] is suspended. *)
Inductive frame : Type :=
| Created
    (** [all(since, until)] has returned the generator; its body has not
        started *)
| FirstPage (total : pyval) (rest : list pyval)
    (** at the [yield] of the first loop; [rest] is what the loop over
        [incidents] has still to deliver *)
| LaterPage (pages : list Z) (rest : list pyval)
    (** at the [yield] of the inner loop; [pages] is what [range] has still
        to deliver *)
| Finished.

Record generator : Type := mkGenerator {
  g_since : string;
  g_until : string;
  g_frame : frame
}.

Definition limit : Z := 100.

(** Calling [all] only builds the generator object. *)
Definition all (since until : string) : generator :=
  mkGenerator since until Created.

Section Pagination.

Context {W : Type}.

(** The method [self._make_request], whatever object [self] is. *)
Variable make_request : string -> string -> Z -> Z -> M W (pyval * pyval).

Definition resumed : Type := (res (option pyval) * generator) * W.

Definition yield (g : generator) (i : pyval) (f : frame) (w : W) : resumed :=
  ((Ok (Some i), mkGenerator (g_since g) (g_until g) f), w).

Definition stop (g : generator) (w : W) : resumed :=
  ((Ok None, mkGenerator (g_since g) (g_until g) Finished), w).

Definition throw (g : generator) (e : exn) (w : W) : resumed :=
  ((Raise e, mkGenerator (g_since g) (g_until g) Finished), w).

(** [for page in range(1, num_pages): ...], entered with the values
    [range] has still to deliver. *)
Fixpoint fetch_pages (g : generator) (pages : list Z) (w : W) : resumed :=
  match pages with
  | [] => stop g w
  | page :: pages' =>
      let offset := page * limit in
      match make_request (g_since g) (g_until g) limit offset w with
      | (Raise e, w') => throw g e w'
      | (Ok (total, incidents), w') =>
          match py_iter incidents with
          | Raise e => throw g e w'
          | Ok [] => fetch_pages g pages' w'
          | Ok (i :: rest) => yield g i (LaterPage pages' rest) w'
          end
      end
  end.

(** From [if total > limit:] on. *)
Definition paginate (g : generator) (total : pyval) (w : W) : resumed :=
  match py_gt total limit with
  | Raise e => throw g e w
  | Ok false => stop g w
  | Ok true =>
      match (q <~ py_truediv total limit ;;
             num_pages <~ py_add q 1 ;;
             py_range 1 num_pages)%res with
      | Raise e => throw g e w
      | Ok pages => fetch_pages g pages w
      end
  end.

(** [next(g)]: run the body up to the next [yield], the end of the body
    ([None], that is [StopIteration]) or an exception. *)
Definition next (g : generator) (w : W) : resumed :=
  match g_frame g with
  | Created =>
      match make_request (g_since g) (g_until g) limit 0 w with
      | (Raise e, w') => throw g e w'
      | (Ok (total, incidents), w') =>
          match py_iter incidents with
          | Raise e => throw g e w'
          | Ok [] => paginate g total w'
          | Ok (i :: rest) => yield g i (FirstPage total rest) w'
          end
      end
  | FirstPage total [] => paginate g total w
  | FirstPage total (i :: rest) => yield g i (FirstPage total rest) w
  | LaterPage pages [] => fetch_pages g pages w
  | LaterPage pages (i :: rest) => yield g i (LaterPage pages rest) w
  | Finished => stop g w
  end.

(** How a consumer's loop over the generator ended. *)
Inductive ending : Type :=
| Exhausted
| Failed (e : exn)
| Stopped.

(** A consumer that asks for at most [n] elements. *)
Fixpoint take (n : nat) (g : generator) (w : W)
  : (list pyval * ending * generator) * W :=
  match n with
  | O => (([], Stopped, g), w)
  | S n' =>
      match next g w with
      | ((Ok (Some x), g'), w') =>
          let '((xs, e, g''), w'') := take n' g' w' in
          ((x :: xs, e, g''), w'')
      | ((Ok None, g'), w') => (([], Exhausted, g'), w')
      | ((Raise e, g'), w') => (([], Failed e, g'), w')
      end
  end.

End Pagination.

(** One call of [_make_request] as an observer sees it. *)
Record call : Type := mkCall {
  call_limit : Z;
  call_offset : Z;
  call_result : res (pyval * pyval)
}.

(** [make_request] with every call written down, oldest first. *)
Definition recording {W} (make_request : string -> string -> Z -> Z -> M W (pyval * pyval))
  : string -> string -> Z -> Z -> M (W * list call) (pyval * pyval) :=
  fun since until lim offset ww =>
    let '(r, w') := make_request since until lim offset (fst ww) in
    (r, (w', (snd ww ++ [mkCall lim offset r])%list)).

Definition offsets (tr : list call) : list Z := map call_offset tr.

(** [Incidents.all] and [next] on its result. *)
Definition Incidents_all (self : Connection) (since until : string) : generator :=
  all since until.

Definition Incidents_next (server : list Request -> Request -> urlopen_result)
    (self : Connection) : generator -> world -> resumed :=
  next (Incidents_make_request server self).

(** ** Printing *)

Definition dquote : string := String (ascii_of_nat 34) EmptyString.

(** An argument of the [%] operator: what [%s] and what [%r] make of it. *)
Definition fmt_arg : Type := (string * string)%type.

(** [fmt % (a1, ..., an)] for the conversions the module uses, [%s], [%r]
    and [%%]: too few arguments and arguments left over are both a
    [TypeError]. *)
Fixpoint percent_format (fmt : string) (args : list fmt_arg) : res string :=
  match fmt with
  | EmptyString =>
      match args with
      | [] => Ok EmptyString
      | _ :: _ => Raise TypeError
      end
  | String "%"%char (String "s"%char rest) =>
      match args with
      | [] => Raise TypeError
      | a :: args' =>
          match percent_format rest args' with
          | Ok r => Ok (fst a ++ r)
          | Raise e => Raise e
          end
      end
  | String "%"%char (String "r"%char rest) =>
      match args with
      | [] => Raise TypeError
      | a :: args' =>
          match percent_format rest args' with
          | Ok r => Ok (snd a ++ r)
          | Raise e => Raise e
          end
      end
  | String "%"%char (String "%"%char rest) =>
      match percent_format rest args with
      | Ok r => Ok (String "%"%char r)
      | Raise e => Raise e
      end
  | String "%"%char _ => Raise ValueError
  | String c rest =>
      match percent_format rest args with
      | Ok r => Ok (String c r)
      | Raise e => Raise e
      end
  end.

(** [bool(v)] *)
Definition py_truthy (v : pyval) : bool :=
  match v with
  | PNone => false
  | PBool b => b
  | PInt z => negb (z =? 0)
  | PFloat q => negb (Qeq_bool q (inject_Z 0))
  | PStr s => negb (String.eqb s "")
  | PList l => match l with [] => false | _ :: _ => true end
  | PDict d => match d with [] => false | _ :: _ => true end
  end.

(** [Request.get_method] *)
Definition get_method (self : Request) : string :=
  match data self with
  | None => "GET"
  | Some _ => "POST"
  end.

(** Reading an attribute that may never have been assigned. *)
Definition getattr (name : string) (o : option pyval) : res pyval :=
  match o with
  | Some v => Ok v
  | None => Raise (AttributeError name)
  end.

Section Printing.

(** [str(v)] and [repr(v)] of the interpreter on decoded values. *)
Variable py_str : pyval -> string.
Variable py_repr : pyval -> string.

Definition arg_of_str (s : string) : fmt_arg := (s, py_repr (PStr s)).
Definition arg_of_val (v : pyval) : fmt_arg := (py_str v, py_repr v).

(** [SchedulesRequest.__repr__] *)
Definition SchedulesRequest_repr (self : Request) : res string :=
  percent_format "SchedulesRequest: {0} {1}"
    [arg_of_str (get_method self); arg_of_str (full_url self)].

(** [IncidentsRequest.__repr__] *)
Definition IncidentsRequest_repr (self : Request) : res string :=
  percent_format "IncidentsRequest: {0} {1}"
    [arg_of_str (get_method self); arg_of_str (full_url self)].

(** The [str.format] call of the two error classes, after the class's own
    prefix. *)
Definition error_line (prefix : string) (self : ApiError) : res string :=
  (c <~ getattr "statuscode" (statuscode self) ;;
   d <~ getattr "statusdesc" (statusdesc self) ;;
   m <~ getattr "errormessage" (errormessage self) ;;
   Ok (prefix ++ py_str c ++ " " ++ py_str d ++ " returned with message, "
       ++ dquote ++ py_str m ++ dquote))%res.

(** [SchedulesError.__repr__], which [__str__] returns too. *)
Definition SchedulesError_repr (self : ApiError) : res string :=
  error_line "Pagerduty Schedules Error: HTTP " self.

(** [IncidentsError.__repr__], which [__str__] returns too. *)
Definition IncidentsError_repr (self : ApiError) : res string :=
  error_line "Pagerduty Incidents Error: HTTP " self.

(** [PagerDutyException.__repr__] *)
Definition PagerDutyException_repr (status message errors : pyval) : res string :=
  percent_format "%s(%r, %r, %r)"
    [arg_of_str "PagerDutyException"; arg_of_val status; arg_of_val message;
     arg_of_val errors].

(** ["* %s" % x] for each [x] of the generator expression. *)
Fixpoint bullet_lines (items : list pyval) : res (list string) :=
  match items with
  | [] => Ok []
  | x :: items' =>
      match percent_format "* %s" [arg_of_val x] with
      | Ok line =>
          match bullet_lines items' with
          | Ok ls => Ok (line :: ls)
          | Raise e => Raise e
          end
      | Raise e => Raise e
      end
  end.

(** [PagerDutyException.__str__] *)
Definition PagerDutyException_str (status message errors : pyval) : res string :=
  (txt <~ percent_format "%s: %s" [arg_of_val status; arg_of_val message] ;;
   if py_truthy errors
   then (items <~ py_iter errors ;;
         ls <~ bullet_lines items ;;
         Ok (txt ++ newline ++ String.concat newline ls))
   else Ok txt)%res.

End Printing.

(** * Vocabulary of the statements *)

(** ** Pagination *)

Definition finished (g : generator) : generator :=
  mkGenerator (g_since g) (g_until g) Finished.

(** How a run of the body that does not reach a [yield] ends the
    consumer's loop. *)
Definition ends (r : res (option pyval)) (e : ending) : Prop :=
  match r with
  | Ok None => e = Exhausted
  | Raise x => e = Failed x
  | Ok (Some _) => False
  end.

(** What computing the page count and the [range] over it raises for a
    total above the limit: [range] refuses the float, unless the total is
    an int so large that the division itself fails. *)
Definition page_count_error (total : pyval) : exn :=
  match total with
  | PInt z => if int_div_overflows z limit then OverflowError else TypeError
  | _ => TypeError
  end.




(** A [_make_request] that serves [total] numbered incidents, a page at a
    time, and has no state of its own. *)
Definition paged_backend (total : Z)
  : string -> string -> Z -> Z -> M unit (pyval * pyval) :=
  fun _ _ lim offset w =>
    (Ok (PInt total,
         PList (map PInt (Z_range offset (Z.min total (offset + lim))))), w).

(** ** Error objects *)

(** The reads that lead to [error['code']]. *)
Definition error_code (e : HTTPError) : res (pyval * pyval) :=
  (j <~ json_loads (fp e) ;;
   error <~ py_getitem j "error" ;;
   c <~ py_getitem error "code" ;;
   Ok (error, c))%res.

(** [' | '.join(error.get('errors', []))] *)
Definition error_desc (error : pyval) : res pyval :=
  (errors <~ py_get error "errors" (PList []) ;;
   py_join " | " errors)%res.

(** The object [IncidentsError.__init__] has built when it enters [try]. *)
Definition coarse (e : HTTPError) : ApiError :=
  mkApiError e (Some (PInt (code e))) (Some (PStr (msg e))) (Some (PStr "")).

(** An HTTP 500 whose body carries a complete error object. *)
Definition structured_failure : HTTPError :=
  mkHTTPError "https://acme.pagerduty.com/api/v1/incidents" 500
    "Internal Server Error" []
    (Decodable
       (PDict [("error",
                PDict [("code", PInt 2001);
                       ("message", PStr "Invalid Input Provided");
                       ("errors", PList [PStr "since is invalid";
                                         PStr "until is invalid"])])])).

(** An HTTP 500 whose error object has a code and no message. *)
Definition half_structured_failure : HTTPError :=
  mkHTTPError "https://acme.pagerduty.com/api/v1/incidents" 500
    "Internal Server Error" []
    (Decodable (PDict [("error", PDict [("code", PInt 42)])])).

(** A 200 response whose body is an error envelope. *)
Definition error_envelope : HTTPResponse :=
  mkHTTPResponse []
    (Decodable
       (PDict [("error", PDict [("code", PInt 2001);
                                ("message", PStr "Invalid Input Provided")])])).

(** ** Events *)

(** The request [_request] sends for an event. *)
Definition event_request (self : PagerDuty) (event_type : string)
    (kwargs : list (string * pyval)) : Request :=
  mkRequest (api_endpoint self) (Some (PDict (build_event self event_type kwargs)))
    [] (Some (pd_timeout self)).

(** The server answers [r] with body [b], either with a success status or
    with an HTTP 400. *)
Definition answered (server : list Request -> Request -> urlopen_result)
    (w : world) (r : Request) (b : body) : Prop :=
  (exists x, server w r = Responded x /\ resp_body x = b)
  \/ (exists exc, server w r = Refused exc /\ code exc = 400 /\ fp exc = b).

(** The keyword arguments the three public operations pass on. *)
Definition three_fields (description incident_key details : pyval)
  : list (string * pyval) :=
  [("description", description); ("incident_key", incident_key);
   ("details", details)].

(** A server that answers every request with an HTTP 400 and body [b]. *)
Definition bad_request (b : pyval) : list Request -> Request -> urlopen_result :=
  fun _ r => Refused (mkHTTPError (full_url r) 400 "Bad Request" [] (Decodable b)).

Definition acme : PagerDuty := PagerDuty_init "0123456789abcdef" true 15.

Definition trigger_x : Request :=
  event_request acme "trigger" (three_fields (PStr "x") PNone PNone).


(** ** Further vocabulary *)

(** The states of the generator in which the body is not inside a later
    page. *)
Definition in_first_page (g : generator) : Prop :=
  match g_frame g with
  | FirstPage _ _ | Finished => True
  | _ => False
  end.

(** How draining ends once the first page has been delivered. *)
Definition ending_for (total : pyval) : ending :=
  match total with
  | PBool _ => Exhausted
  | PInt z =>
      if z <=? limit then Exhausted
      else Failed (if int_div_overflows z limit then OverflowError else TypeError)
  | PFloat q =>
      if Qle_bool q (inject_Z limit) then Exhausted else Failed TypeError
  | _ => Failed TypeError
  end.

(** A server that answers every request with an empty listing. *)
Definition empty_listing : list Request -> Request -> urlopen_result :=
  fun _ _ =>
    Responded
      (mkHTTPResponse []
         (Decodable (PDict [("total", PInt 0); ("incidents", PList [])]))).

(** A [_make_request] that is never answered. *)
Definition unreachable_backend
  : string -> string -> Z -> Z -> M unit (pyval * pyval) :=
  fun _ _ _ _ w => (Raise URLError, w).

(** [str] on the values whose text does not depend on how the interpreter
    prints floats and containers. *)
Definition scalar_str (v : pyval) : string :=
  match v with
  | PNone => "None"
  | PBool true => "True"
  | PBool false => "False"
  | PInt z => NilZero.string_of_int (Z.to_int z)
  | PStr s => s
  | _ => "..."
  end.

Definition scalar_repr (v : pyval) : string :=
  match v with
  | PStr s => "'" ++ s ++ "'"
  | _ => scalar_str v
  end.

(** An HTTP 502 whose body is not JSON. *)
Definition gateway_failure : HTTPError :=
  mkHTTPError "https://acme.pagerduty.com/api/v1/schedules/PX1/entries" 502
    "Bad Gateway" [] (Undecodable "<html>Bad Gateway</html>").

(** A server that answers every request with the same 200 response. *)
Definition always_responds (b : body) : list Request -> Request -> urlopen_result :=
  fun _ _ => Responded (mkHTTPResponse [] b).

(** A server that refuses every request with the same [HTTPError]. *)
Definition always_refuses (e : HTTPError) : list Request -> Request -> urlopen_result :=
  fun _ _ => Refused e.

(** A server that cannot be reached. *)
Definition never_answers : list Request -> Request -> urlopen_result :=
  fun _ _ => Unreachable.

Definition some_request : Request :=
  mkRequest "https://acme.pagerduty.com/api/v1/incidents?offset=0" None [] None.

(** No value of the dict is [None]. *)
Definition no_null (d : dict) : Prop :=
  Forall (fun kv => is_none (snd kv) = false) d.
(** * The library model on small inputs *)

Example base64_alice :
  base64_encodestring (Bytes "alice:secret")
  = Ok (Bytes ("YWxpY2U6c2VjcmV0" ++ newline)).
Proof. reflexivity. Qed.

Example base64_rejects_str :
  base64_encodestring (Text "alice:secret") = Raise TypeError.
Proof. reflexivity. Qed.

Example urlencode_entries :
  urlencode [("since", QStr "2020-01-01T10:00:00+02:00");
             ("until", QStr "2020-02-01"); ("overflow", QBool true)]
  = "since=2020-01-01T10%3A00%3A00%2B02%3A00&until=2020-02-01&overflow=True".
Proof. reflexivity. Qed.

Example page_count_250 :
  (q <~ py_truediv (PInt 250) limit ;; py_add q 1)%res
  = Ok (PFloat (Qplus (Qdiv (inject_Z 250) (inject_Z 100)) (inject_Z 1))).
Proof. reflexivity. Qed.

(** * Pagination *)

(** The two ints the page count is computed with have floats. *)
Lemma small_ints_fit : int_too_large limit = false /\ int_too_large 1 = false.
Proof. split; vm_compute; reflexivity. Qed.

Section PaginationFacts.

Context {W : Type}.
Variable mk : string -> string -> Z -> Z -> M W (pyval * pyval).

Lemma paginate_within_limit (g : generator) (total : pyval) (w : W) :
  py_gt total limit = Ok false ->
  paginate mk g total w = ((Ok None, finished g), w).
Proof.
  intros H. unfold paginate. rewrite H. reflexivity.
Qed.

(** [(total / limit) + 1] is a float whenever it can be computed at all,
    and [range] refuses it; for an int that is too large the division
    fails before. *)
Lemma page_count_is_float (total : pyval) :
  py_gt total limit = Ok true ->
  (q <~ py_truediv total limit ;;
   num_pages <~ py_add q 1 ;;
   py_range 1 num_pages)%res = Raise (page_count_error total).
Proof.
  destruct small_ints_fit as [Hl H1].
  destruct total as [|b|z|q|s|l|d]; intros H; try discriminate H.
  - destruct b; discriminate H.
  - unfold py_truediv, page_count_error. change (limit =? 0) with false. cbv iota.
    destruct (int_div_overflows z limit); [reflexivity|].
    simpl. rewrite ?H1. reflexivity.
  - unfold py_truediv, page_count_error. rewrite Hl.
    change (limit =? 0) with false. simpl. rewrite ?H1. reflexivity.
Qed.

Lemma paginate_beyond_limit (g : generator) (total : pyval) (w : W) :
  py_gt total limit = Ok true ->
  paginate mk g total w = ((Raise (page_count_error total), finished g), w).
Proof.
  intros H. unfold paginate. rewrite H, (page_count_is_float _ H). reflexivity.
Qed.

(** Once the body is inside the first page, the consumer gets the rest of
    that page and then whatever [paginate] ends with. *)
Lemma take_rest_of_first_page (total : pyval) (r : res (option pyval)) (e : ending) :
  ends r e ->
  (forall g w, paginate mk g total w = ((r, finished g), w)) ->
  forall rest n s u w,
    (List.length rest < n)%nat ->
    take mk n (mkGenerator s u (FirstPage total rest)) w
    = ((rest, e, mkGenerator s u Finished), w).
Proof.
  intros He Hp. induction rest as [|i rest IH]; intros n s u w Hn.
  - destruct n as [|n]; [inversion Hn|].
    simpl. unfold next. simpl. rewrite Hp.
    destruct r as [[x|]|x]; simpl in He; [contradiction| |]; subst e; reflexivity.
  - destruct n as [|n]; [inversion Hn|].
    simpl in Hn. simpl. rewrite IH by lia. reflexivity.
Qed.

Lemma take_first_page (total incidents : pyval) (items : list pyval)
    (r : res (option pyval)) (e : ending) since until w w1 n :
  ends r e ->
  (forall g w, paginate mk g total w = ((r, finished g), w)) ->
  mk since until limit 0 w = (Ok (total, incidents), w1) ->
  py_iter incidents = Ok items ->
  (List.length items < n)%nat ->
  take mk n (all since until) w
  = ((items, e, mkGenerator since until Finished), w1).
Proof.
  intros He Hp Hmk Hit Hn.
  destruct n as [|n]; [inversion Hn|].
  simpl. unfold next. simpl. rewrite Hmk, Hit.
  destruct items as [|i rest].
  - rewrite Hp.
    destruct r as [[x|]|x]; simpl in He; [contradiction| |]; subst e; reflexivity.
  - simpl in Hn.
    unfold yield. simpl.
    rewrite (take_rest_of_first_page total r e He Hp) by lia. reflexivity.
Qed.

End PaginationFacts.

Lemma recording_call {W} (mk : string -> string -> Z -> Z -> M W (pyval * pyval))
    since until lim offset w tr r w1 :
  mk since until lim offset w = (r, w1) ->
  recording mk since until lim offset (w, tr)
  = (r, (w1, (tr ++ [mkCall lim offset r])%list)).
Proof.
  intros H. unfold recording. simpl. rewrite H. reflexivity.
Qed.

(** Each [fetch] is exactly one round trip, whatever comes back. *)
Lemma fetch_is_one_round_trip
    (server : list Request -> Request -> urlopen_result) (r : Request) (w : world) :
  snd (SchedulesRequest_fetch server r w) = (w ++ [r])%list
  /\ snd (IncidentsRequest_fetch server r w) = (w ++ [r])%list.
Proof.
  unfold SchedulesRequest_fetch, IncidentsRequest_fetch, urlopen.
  destruct (server w r) as [x|e|]; split; reflexivity.
Qed.

(** C1: what the code does where the claim expects three round trips.
    Let the first call of [_make_request] (offset 0) report an integer
    total above the page size of 100, for instance 250.  A consumer that
    drains the generator of [all] receives the incidents of that first page
    and then a [TypeError]: [(total / limit) + 1] is a float and [range]
    refuses it.  (For a total beyond the range of floats the division
    itself raises, an [OverflowError].)  [_make_request] has been called
    once, with offset 0; offsets 100 and 200 are never requested. *)
Theorem all_raises_beyond_first_page :
  forall (W : Type) (mk : string -> string -> Z -> Z -> M W (pyval * pyval))
         (since until : string) (w w1 : W) (t : Z) (incidents : pyval)
         (items : list pyval) (n : nat),
    mk since until limit 0 w = (Ok (PInt t, incidents), w1) ->
    py_iter incidents = Ok items ->
    limit < t ->
    (List.length items < n)%nat ->
    take (recording mk) n (all since until) (w, [])
    = ((items,
        Failed (if int_div_overflows t limit then OverflowError else TypeError),
        mkGenerator since until Finished),
       (w1, [mkCall limit 0 (Ok (PInt t, incidents))])).
Proof.
  intros W mk since until w w1 t incidents items n Hmk Hit Ht Hn.
  apply (take_first_page (recording mk) (PInt t) incidents items
           (Raise (page_count_error (PInt t)))
           (Failed (page_count_error (PInt t)))); auto.
  - reflexivity.
  - intros g ww. apply paginate_beyond_limit.
    simpl. f_equal. apply Z.ltb_lt. exact Ht.
  - apply (recording_call mk since until limit 0 w [] _ w1 Hmk).
Qed.

(** The run of C1 with a total of 250 and pages of 100 incidents. *)
Example all_raises_beyond_first_page_250 :
  take (recording (paged_backend 250)) 1000 (all "2024-01-01" "2024-02-01") (tt, [])
  = ((map PInt (Z_range 0 100), Failed TypeError,
      mkGenerator "2024-01-01" "2024-02-01" Finished),
     (tt, [mkCall 100 0 (Ok (PInt 250, PList (map PInt (Z_range 0 100))))])).
Proof.
  apply (all_raises_beyond_first_page unit (paged_backend 250)
           "2024-01-01" "2024-02-01" tt tt 250
           (PList (map PInt (Z_range 0 100))) (map PInt (Z_range 0 100)) 1000).
  - reflexivity.
  - reflexivity.
  - unfold limit. lia.
  - vm_compute. lia.
Defined.

(** The generator on a listing of one page.  Whenever the first call of
    a [_make_request] reports an integer total of at most 100, a consumer
    that drains the generator of [all] receives exactly the incidents of
    that first page, in order, and the generator then ends normally;
    [_make_request] has been called exactly once, with limit 100 and
    offset 0. *)
Theorem all_single_round_trip :
  forall (W : Type) (mk : string -> string -> Z -> Z -> M W (pyval * pyval))
         (since until : string) (w w1 : W) (t : Z) (incidents : pyval)
         (items : list pyval) (n : nat),
    mk since until limit 0 w = (Ok (PInt t, incidents), w1) ->
    py_iter incidents = Ok items ->
    t <= limit ->
    (List.length items < n)%nat ->
    take (recording mk) n (all since until) (w, [])
    = ((items, Exhausted, mkGenerator since until Finished),
       (w1, [mkCall limit 0 (Ok (PInt t, incidents))])).
Proof.
  intros W mk since until w w1 t incidents items n Hmk Hit Ht Hn.
  apply (take_first_page (recording mk) (PInt t) incidents items
           (Ok None) Exhausted); auto.
  - reflexivity.
  - intros g ww. apply paginate_within_limit.
    simpl. f_equal. apply Z.ltb_ge. exact Ht.
  - apply (recording_call mk since until limit 0 w [] _ w1 Hmk).
Qed.

(** A listing of exactly 100 incidents. *)
Example all_single_round_trip_100 :
  take (recording (paged_backend 100)) 1000 (all "2024-01-01" "2024-02-01") (tt, [])
  = ((map PInt (Z_range 0 100), Exhausted,
      mkGenerator "2024-01-01" "2024-02-01" Finished),
     (tt, [mkCall 100 0 (Ok (PInt 100, PList (map PInt (Z_range 0 100))))])).
Proof.
  apply (all_single_round_trip unit (paged_backend 100)
           "2024-01-01" "2024-02-01" tt tt 100
           (PList (map PInt (Z_range 0 100))) (map PInt (Z_range 0 100)) 1000).
  - reflexivity.
  - reflexivity.
  - unfold limit. lia.
  - vm_compute. lia.
Defined.

(** * Laziness *)

Section Laziness.

Context {W : Type}.
Variable mk : string -> string -> Z -> Z -> M W (pyval * pyval).








End Laziness.



(** * Error objects *)

Lemma HTTPError_init_from_caught (e : HTTPError) :
  HTTPError_init_from (ObjHTTPError e) = Ok e.
Proof. destruct e; reflexivity. Qed.

Lemma try_decode_no_code (self : ApiError) (x : exn) :
  error_code (http self) = Raise x -> try_decode self = self.
Proof.
  unfold error_code, try_decode. intros H. rewrite H. reflexivity.
Qed.

Lemma try_decode_code (self : ApiError) (error c : pyval) :
  error_code (http self) = Ok (error, c) ->
  try_decode self =
    match error_desc error with
    | Raise _ => set_statuscode self c
    | Ok d =>
        match py_getitem error "message" with
        | Raise _ => set_statusdesc (set_statuscode self c) d
        | Ok m => set_errormessage (set_statusdesc (set_statuscode self c) d) m
        end
    end.
Proof.
  unfold error_code, try_decode, error_desc. intros H. rewrite H. reflexivity.
Qed.

Lemma try_decode_http (self : ApiError) : http (try_decode self) = http self.
Proof.
  unfold try_decode.
  destruct (j <~ json_loads (fp (http self)) ;;
            error <~ py_getitem j "error" ;;
            c <~ py_getitem error "code" ;;
            Ok (error, c))%res as [[error c]|x]; [|reflexivity].
  destruct (errors <~ py_get error "errors" (PList []) ;;
            py_join " | " errors)%res; [|reflexivity].
  destruct (py_getitem error "message"); reflexivity.
Qed.

Lemma IncidentsError_init_caught (e : HTTPError) :
  IncidentsError_init (ObjHTTPError e) = Ok (try_decode (coarse e)).
Proof.
  unfold IncidentsError_init. rewrite HTTPError_init_from_caught. reflexivity.
Qed.

Lemma SchedulesError_init_caught (e : HTTPError) :
  SchedulesError_init (ObjHTTPError e)
  = Ok (try_decode (mkApiError e None None None)).
Proof.
  unfold SchedulesError_init. rewrite HTTPError_init_from_caught. reflexivity.
Qed.

(** C3, as the code has it.  For a caught [HTTPError] [e]:
    (1, 2) both constructors return an error object and never raise, and
    the object keeps the code, message, headers and body of [e] in its
    [HTTPError] part;
    (3) when the body does not decode to an object with an [error] object
    that has a [code], [IncidentsError] keeps the HTTP-level defaults:
    [statuscode] the HTTP code, [statusdesc] the HTTP message,
    [errormessage] the empty string;
    (4) when [code], the joined [errors] and [message] can all be read,
    both classes hold these three values;
    (5, 6) the attributes are assigned one after the other, so a failure
    later in the decoding keeps what was assigned before it: when the
    [errors] cannot be joined, [IncidentsError] has the structured
    [statuscode] and the two other defaults; when only [message] is
    missing, it has the structured [statuscode] and [statusdesc] and the
    default [errormessage]. *)
Theorem error_object_fields :
  forall e : HTTPError,
    (exists err, IncidentsError_init (ObjHTTPError e) = Ok err /\ http err = e)
    /\ (exists err, SchedulesError_init (ObjHTTPError e) = Ok err /\ http err = e)
    /\ (forall x,
          error_code e = Raise x ->
          IncidentsError_init (ObjHTTPError e) = Ok (coarse e))
    /\ (forall error c d m,
          error_code e = Ok (error, c) ->
          error_desc error = Ok d ->
          py_getitem error "message" = Ok m ->
          IncidentsError_init (ObjHTTPError e)
          = Ok (mkApiError e (Some c) (Some d) (Some m))
          /\ SchedulesError_init (ObjHTTPError e)
             = Ok (mkApiError e (Some c) (Some d) (Some m)))
    /\ (forall error c x,
          error_code e = Ok (error, c) ->
          error_desc error = Raise x ->
          IncidentsError_init (ObjHTTPError e)
          = Ok (mkApiError e (Some c) (Some (PStr (msg e))) (Some (PStr ""))))
    /\ (forall error c d x,
          error_code e = Ok (error, c) ->
          error_desc error = Ok d ->
          py_getitem error "message" = Raise x ->
          IncidentsError_init (ObjHTTPError e)
          = Ok (mkApiError e (Some c) (Some d) (Some (PStr "")))).
Proof.
  intros e.
  rewrite IncidentsError_init_caught, SchedulesError_init_caught.
  split; [|split; [|split; [|split; [|split]]]].
  - eexists. split; [reflexivity|]. apply try_decode_http.
  - eexists. split; [reflexivity|]. apply try_decode_http.
  - intros x H. rewrite (try_decode_no_code (coarse e) x H). reflexivity.
  - intros error c d m H Hd Hm. split.
    + rewrite (try_decode_code (coarse e) error c H), Hd, Hm. reflexivity.
    + rewrite (try_decode_code (mkApiError e None None None) error c H), Hd, Hm.
      reflexivity.
  - intros error c x H Hd.
    rewrite (try_decode_code (coarse e) error c H), Hd. reflexivity.
  - intros error c d x H Hd Hm.
    rewrite (try_decode_code (coarse e) error c H), Hd, Hm. reflexivity.
Qed.

(** C3 on an HTTP 500 with a complete error object. *)
Example error_object_fields_structured :
  IncidentsError_init (ObjHTTPError structured_failure)
  = Ok (mkApiError structured_failure (Some (PInt 2001))
          (Some (PStr "since is invalid | until is invalid"))
          (Some (PStr "Invalid Input Provided")))
  /\ SchedulesError_init (ObjHTTPError structured_failure)
     = Ok (mkApiError structured_failure (Some (PInt 2001))
             (Some (PStr "since is invalid | until is invalid"))
             (Some (PStr "Invalid Input Provided"))).
Proof.
  destruct (error_object_fields structured_failure) as (_ & _ & _ & H & _).
  apply (H (PDict [("code", PInt 2001);
                   ("message", PStr "Invalid Input Provided");
                   ("errors", PList [PStr "since is invalid";
                                     PStr "until is invalid"])])
           (PInt 2001)); reflexivity.
Defined.

(** C3 as stated fails: the error object of this HTTP 500 has no
    [message], so the decoding fails, and yet [statuscode] is the 42 of
    the body and not the HTTP code 500. *)
Example IncidentsError_keeps_half_decoded_code :
  py_getitem (PDict [("code", PInt 42)]) "message" = Raise (KeyError "message")
  /\ code half_structured_failure = 500
  /\ exists err,
       IncidentsError_init (ObjHTTPError half_structured_failure) = Ok err
       /\ statuscode err = Some (PInt 42)
       /\ statuscode err <> Some (PInt (code half_structured_failure)).
Proof.
  split; [reflexivity|]. split; [reflexivity|].
  eexists. split; [reflexivity|]. split; [reflexivity|].
  simpl. discriminate.
Qed.

(** * Responses with an error envelope *)

(** C4: what the code does where the claim expects a [SchedulesError] or
    an [IncidentsError].  When the decoded body is an object with a
    top-level [error] key, both response constructors hand that object to
    the error constructor, which reads [http_error.filename] first; the
    object has no such attribute, so an [AttributeError] is raised and no
    structured error is ever built. *)
Theorem error_envelope_raises_AttributeError :
  forall (response : HTTPResponse) (d : dict),
    resp_body response = Decodable (PDict d) ->
    has_key d "error" = true ->
    SchedulesResponse_init response = Raise (AttributeError "filename")
    /\ IncidentsResponse_init response = Raise (AttributeError "filename").
Proof.
  intros response d Hb Hk.
  unfold SchedulesResponse_init, IncidentsResponse_init.
  rewrite Hb. simpl. rewrite Hk. split; reflexivity.
Qed.

(** C4 on a well-formed error envelope. *)
Example error_envelope_raises_AttributeError_2001 :
  SchedulesResponse_init error_envelope = Raise (AttributeError "filename")
  /\ IncidentsResponse_init error_envelope = Raise (AttributeError "filename").
Proof.
  apply (error_envelope_raises_AttributeError error_envelope
           [("error", PDict [("code", PInt 2001);
                             ("message", PStr "Invalid Input Provided")])]);
    reflexivity.
Defined.

(** * Events *)

Section EventsFacts.

Variable server : list Request -> Request -> urlopen_result.
Variable self : PagerDuty.

Lemma PagerDuty_request_sends (event_type : string)
    (kwargs : list (string * pyval)) (w : world) :
  snd (PagerDuty_request server self event_type kwargs w)
  = (w ++ [event_request self event_type kwargs])%list.
Proof.
  unfold PagerDuty_request, bind, post_event, urlopen, event_request.
  destruct (server w _) as [x|exc|]; simpl; try reflexivity.
  - destruct (json_loads (resp_body x)); reflexivity.
  - destruct (code exc =? 400); simpl; [|reflexivity].
    destruct (json_loads (fp exc)); reflexivity.
Qed.

Lemma PagerDuty_request_refused (event_type : string)
    (kwargs : list (string * pyval)) (w : world) (exc : HTTPError) :
  server w (event_request self event_type kwargs) = Refused exc ->
  code exc <> 400 ->
  PagerDuty_request server self event_type kwargs w
  = (Raise (HTTPErrorExn exc), (w ++ [event_request self event_type kwargs])%list).
Proof.
  intros Hs Hc.
  unfold PagerDuty_request, bind, post_event, urlopen.
  fold (event_request self event_type kwargs). rewrite Hs.
  apply Z.eqb_neq in Hc. rewrite Hc. reflexivity.
Qed.

Lemma PagerDuty_request_answered (event_type : string)
    (kwargs : list (string * pyval)) (w : world) (b : body) (result : pyval) :
  answered server w (event_request self event_type kwargs) b ->
  json_loads b = Ok result ->
  PagerDuty_request server self event_type kwargs w
  = (interpret_result result, (w ++ [event_request self event_type kwargs])%list).
Proof.
  intros Ha Hj.
  unfold PagerDuty_request, bind, post_event, urlopen.
  fold (event_request self event_type kwargs).
  destruct Ha as [(x & Hs & Hb)|(exc & Hs & Hc & Hb)]; rewrite Hs.
  - rewrite Hb. unfold lift. rewrite Hj. reflexivity.
  - apply Z.eqb_eq in Hc. rewrite Hc. simpl.
    rewrite Hb. unfold lift. rewrite Hj. reflexivity.
Qed.

Lemma interpret_success (d : dict) (s : pyval) :
  dict_lookup d "status" = Some s ->
  py_ne_str s "success" = false ->
  interpret_result (PDict d)
  = Ok (match dict_lookup d "incident_key" with
        | Some k => k
        | None => PNone
        end).
Proof.
  intros Hs Hn. unfold interpret_result. simpl. rewrite Hs. simpl. rewrite Hn.
  destruct (dict_lookup d "incident_key"); reflexivity.
Qed.

Lemma interpret_failure (d : dict) (s : pyval) :
  dict_lookup d "status" = Some s ->
  py_ne_str s "success" = true ->
  interpret_result (PDict d)
  = match dict_lookup d "message" with
    | None => Raise (KeyError "message")
    | Some m =>
        match dict_lookup d "errors" with
        | None => Raise (KeyError "errors")
        | Some e => Raise (PagerDutyException s m e)
        end
    end.
Proof.
  intros Hs Hn. unfold interpret_result. simpl. rewrite Hs. simpl. rewrite Hn.
  destruct (dict_lookup d "message"); simpl; [|reflexivity].
  destruct (dict_lookup d "errors"); reflexivity.
Qed.

End EventsFacts.

(** C5, as the code has it.  For every call of [_request], hence for
    [trigger], [acknowledge] and [resolve], exactly one request is sent,
    and:
    (1) an [HTTPError] whose code is not 400 is raised again as it is;
    (2) when the server answers with a success status or with an HTTP 400,
    and the body decodes to an object with a [status] field, then
    (a) if [status] is ["success"] the call returns the [incident_key]
    field, or [None] when there is none;
    (b) if [status] is not ["success"] and the object has both [message]
    and [errors], the call raises [PagerDutyException] with that status,
    message and errors;
    (c) the call raises a [PagerDutyException] in no other case: only when
    [status] is not ["success"] and both keys are present, and then with
    exactly these values. *)
Theorem events_result_interpretation :
  forall (server : list Request -> Request -> urlopen_result)
         (self : PagerDuty) (event_type : string)
         (kwargs : list (string * pyval)) (w : world),
    let r := event_request self event_type kwargs in
    let run := PagerDuty_request server self event_type kwargs w in
    (forall exc,
        server w r = Refused exc -> code exc <> 400 ->
        run = (Raise (HTTPErrorExn exc), (w ++ [r])%list))
    /\ (forall b d s,
          answered server w r b ->
          json_loads b = Ok (PDict d) ->
          dict_lookup d "status" = Some s ->
          (py_ne_str s "success" = false ->
           run = (Ok (match dict_lookup d "incident_key" with
                      | Some k => k
                      | None => PNone
                      end), (w ++ [r])%list))
          /\ (forall m e,
                py_ne_str s "success" = true ->
                dict_lookup d "message" = Some m ->
                dict_lookup d "errors" = Some e ->
                run = (Raise (PagerDutyException s m e), (w ++ [r])%list))
          /\ (forall a m e,
                fst run = Raise (PagerDutyException a m e) ->
                py_ne_str s "success" = true /\ a = s
                /\ dict_lookup d "message" = Some m
                /\ dict_lookup d "errors" = Some e)).
Proof.
  intros server self event_type kwargs w r run. split.
  - intros exc Hs Hc. apply PagerDuty_request_refused; assumption.
  - intros b d s Ha Hj Hs.
    assert (Hrun : run = (interpret_result (PDict d), (w ++ [r])%list))
      by (apply (PagerDuty_request_answered server self event_type kwargs w b); assumption).
    rewrite Hrun. split; [|split].
    + intros Hn. rewrite (interpret_success d s Hs Hn). reflexivity.
    + intros m e Hn Hm He.
      rewrite (interpret_failure d s Hs Hn), Hm, He. reflexivity.
    + intros a m e H. simpl in H.
      destruct (py_ne_str s "success") eqn:Hn.
      * rewrite (interpret_failure d s Hs Hn) in H.
        destruct (dict_lookup d "message"); [|discriminate].
        destruct (dict_lookup d "errors"); [|discriminate].
        inversion H; subst. repeat split.
      * rewrite (interpret_success d s Hs Hn) in H. discriminate.
Qed.

(** C5 on the HTTP 400 with body
    [{"status": "failure", "message": "m", "errors": ["e1"]}]: a
    [PagerDutyException], not a transport error. *)
Example events_400_is_a_domain_error :
  PagerDuty_request
    (bad_request (PDict [("status", PStr "failure"); ("message", PStr "m");
                         ("errors", PList [PStr "e1"])]))
    acme "trigger" (three_fields (PStr "x") PNone PNone) []
  = (Raise (PagerDutyException (PStr "failure") (PStr "m") (PList [PStr "e1"])),
     [trigger_x]).
Proof.
  destruct (events_result_interpretation
              (bad_request (PDict [("status", PStr "failure"); ("message", PStr "m");
                                   ("errors", PList [PStr "e1"])]))
              acme "trigger" (three_fields (PStr "x") PNone PNone) [])
    as [_ H].
  destruct (H (Decodable (PDict [("status", PStr "failure"); ("message", PStr "m");
                                 ("errors", PList [PStr "e1"])]))
              [("status", PStr "failure"); ("message", PStr "m");
               ("errors", PList [PStr "e1"])]
              (PStr "failure")) as (_ & Hfail & _).
  - right. eexists. repeat split.
  - reflexivity.
  - reflexivity.
  - apply Hfail; reflexivity.
Defined.

(** C5 as stated fails: the result of this call has a [status] other than
    ["success"], and the call raises [KeyError] and no
    [PagerDutyException]. *)
Example events_failure_without_message :
  py_ne_str (PStr "failure") "success" = true
  /\ PagerDuty_trigger (bad_request (PDict [("status", PStr "failure")]))
       acme (PStr "x") PNone PNone []
     = (Raise (KeyError "message"), [trigger_x])
  /\ forall a m e,
       fst (PagerDuty_trigger (bad_request (PDict [("status", PStr "failure")]))
              acme (PStr "x") PNone PNone [])
       <> Raise (PagerDutyException a m e).
Proof.
  split; [reflexivity|]. split; [reflexivity|].
  intros a m e. simpl. discriminate.
Qed.

(** C10.  When the response body of an Events call decodes to an object
    whose [status] is not ["success"]: without a [message] key the call
    fails with [KeyError] on [message]; with [message] and without
    [errors] it fails with [KeyError] on [errors]; and if the call does
    raise a [PagerDutyException], both keys are present and are what the
    exception carries. *)
Theorem events_failure_needs_message_and_errors :
  forall (server : list Request -> Request -> urlopen_result)
         (self : PagerDuty) (event_type : string)
         (kwargs : list (string * pyval)) (w : world)
         (b : body) (d : dict) (s : pyval),
    let r := event_request self event_type kwargs in
    let run := PagerDuty_request server self event_type kwargs w in
    answered server w r b ->
    json_loads b = Ok (PDict d) ->
    dict_lookup d "status" = Some s ->
    py_ne_str s "success" = true ->
    (dict_lookup d "message" = None ->
     run = (Raise (KeyError "message"), (w ++ [r])%list))
    /\ (forall m,
          dict_lookup d "message" = Some m ->
          dict_lookup d "errors" = None ->
          run = (Raise (KeyError "errors"), (w ++ [r])%list))
    /\ (forall a m e,
          fst run = Raise (PagerDutyException a m e) ->
          dict_lookup d "message" = Some m /\ dict_lookup d "errors" = Some e).
Proof.
  intros server self event_type kwargs w b d s r run Ha Hj Hs Hn.
  assert (Hrun : run = (interpret_result (PDict d), (w ++ [r])%list))
    by (apply (PagerDuty_request_answered server self event_type kwargs w b); assumption).
  rewrite Hrun, (interpret_failure d s Hs Hn). split; [|split].
  - intros Hm. rewrite Hm. reflexivity.
  - intros m Hm He. rewrite Hm, He. reflexivity.
  - intros a m e H. simpl in H.
    destruct (dict_lookup d "message"); [|discriminate].
    destruct (dict_lookup d "errors"); [|discriminate].
    inversion H; subst. split; reflexivity.
Qed.

(** C10 on an HTTP 400 whose body has a [message] and no [errors]. *)
Example events_failure_needs_message_and_errors_400 :
  PagerDuty_request
    (bad_request (PDict [("status", PStr "invalid event");
                         ("message", PStr "Event object is invalid")]))
    acme "trigger" (three_fields (PStr "x") PNone PNone) []
  = (Raise (KeyError "errors"), [trigger_x]).
Proof.
  destruct (events_failure_needs_message_and_errors
              (bad_request (PDict [("status", PStr "invalid event");
                                   ("message", PStr "Event object is invalid")]))
              acme "trigger" (three_fields (PStr "x") PNone PNone) []
              (Decodable (PDict [("status", PStr "invalid event");
                                 ("message", PStr "Event object is invalid")]))
              [("status", PStr "invalid event");
               ("message", PStr "Event object is invalid")]
              (PStr "invalid event")) as (_ & Herrors & _).
  - right. eexists. repeat split.
  - reflexivity.
  - reflexivity.
  - reflexivity.
  - apply (Herrors (PStr "Event object is invalid")); reflexivity.
Defined.

(** C6.  (1) [trigger(description)] with [incident_key] and [details] left
    at [None] sends one request whose body has exactly the keys
    [service_key], [event_type] with value ["trigger"], and [description],
    in this order.  (2) Each of the three operations sends the event built
    from its three fields.  (3) In that event a field is present with its
    value when the value is not [None] and absent when it is; the keys of
    the event are [service_key], [event_type] and the fields that are not
    [None], nothing else. *)
Theorem events_body_omits_null_fields :
  forall (server : list Request -> Request -> urlopen_result)
         (self : PagerDuty) (w : world),
    (forall description : string,
        snd (PagerDuty_trigger server self (PStr description) PNone PNone w)
        = (w ++ [mkRequest (api_endpoint self)
                   (Some (PDict [("service_key", PStr (service_key self));
                                 ("event_type", PStr "trigger");
                                 ("description", PStr description)]))
                   [] (Some (pd_timeout self))])%list)
    /\ (forall a b c,
          snd (PagerDuty_trigger server self a b c w)
          = (w ++ [event_request self "trigger" (three_fields a b c)])%list
          /\ snd (PagerDuty_acknowledge server self b a c w)
             = (w ++ [event_request self "acknowledge" (three_fields a b c)])%list
          /\ snd (PagerDuty_resolve server self b a c w)
             = (w ++ [event_request self "resolve" (three_fields a b c)])%list)
    /\ (forall event_type a b c,
          let event := build_event self event_type (three_fields a b c) in
          dict_lookup event "description" = (if is_none a then None else Some a)
          /\ dict_lookup event "incident_key" = (if is_none b then None else Some b)
          /\ dict_lookup event "details" = (if is_none c then None else Some c)
          /\ dict_keys event
             = (["service_key"; "event_type"]
                ++ dict_keys (filter (fun kv => negb (is_none (snd kv)))
                                (three_fields a b c)))%list).
Proof.
  intros server self w. split; [|split].
  - intros description. unfold PagerDuty_trigger.
    rewrite PagerDuty_request_sends. reflexivity.
  - intros a b c.
    unfold PagerDuty_trigger, PagerDuty_acknowledge, PagerDuty_resolve.
    rewrite !PagerDuty_request_sends. repeat split.
  - intros event_type a b c event. subst event.
    unfold build_event, add_fields, three_fields. simpl.
    destruct (is_none a), (is_none b), (is_none c); simpl; repeat split.
Qed.

(** * Request construction *)

Lemma add_auth_header_raises (self : Request) (connection : Connection) :
  add_auth_header self connection = Raise TypeError.
Proof. reflexivity. Qed.

Lemma request_init_raises (connection : Connection) (resource : string)
    (params : list (string * qval)) :
  SchedulesRequest_init connection resource params = Raise TypeError
  /\ IncidentsRequest_init connection params = Raise TypeError.
Proof.
  unfold SchedulesRequest_init, IncidentsRequest_init.
  rewrite !add_auth_header_raises. split; reflexivity.
Qed.

(** C8: what the code does where the claim expects an [Authorization]
    header.  Both request constructors hand the [str]
    [username + ":" + password] to [base64.encodestring], which accepts
    bytes only; the call raises before [add_header] is reached, for every
    connection and every set of parameters, so no request with an
    [Authorization] header is ever constructed. *)
Theorem auth_header_is_never_built :
  forall (connection : Connection) (resource : string)
         (params : list (string * qval)),
    SchedulesRequest_init connection resource params = Raise TypeError
    /\ IncidentsRequest_init connection params = Raise TypeError.
Proof.
  intros connection resource params.
  apply request_init_raises.
Qed.

(** C7: what the code does where the claim expects one GET request.  For
    every [since], [until] and [overflow], and whatever the server would
    answer, [entries] raises while it constructs its request (the failure
    of C8) and returns nothing; the history of requests is unchanged, so
    no request has been sent. *)
Theorem entries_sends_nothing :
  forall (server : list Request -> Request -> urlopen_result)
         (self : Connection) (since until : string) (overflow : bool)
         (w : world),
    Schedules_entries server self since until overflow w = (Raise TypeError, w).
Proof.
  intros server self since until overflow w.
  unfold Schedules_entries, bind, lift.
  rewrite (proj1 (request_init_raises self "entries" _)). reflexivity.
Qed.

(** The first [next] on the generator of [Incidents.all] fails the same
    way, before anything is sent. *)
Lemma Incidents_next_sends_nothing
    (server : list Request -> Request -> urlopen_result)
    (self : Connection) (since until : string) (w : world) :
  Incidents_next server self (Incidents_all self since until) w
  = ((Raise TypeError, mkGenerator since until Finished), w).
Proof. reflexivity. Qed.

(** C2: what the code does where the claim expects exactly one request.
    Whatever the server would answer, a listing of at most 100 incidents
    included, a consumer of [Incidents.all] receives no incident: the
    first [next] raises while the client's own [_make_request] constructs
    its request (the failure of C8).  The history of requests is left as
    it was, so the number of requests sent is zero and not one. *)
Theorem Incidents_all_issues_no_request :
  forall (server : list Request -> Request -> urlopen_result)
         (self : Connection) (since until : string) (w : world) (n : nat),
    let run := take (Incidents_make_request server self) (S n)
                 (Incidents_all self since until) w in
    fst run = ([], Failed TypeError, mkGenerator since until Finished)
    /\ snd run = w
    /\ (forall r : Request, snd run <> (w ++ [r])%list).
Proof.
  intros server self since until w n run.
  assert (Hrun : run = (([], Failed TypeError, mkGenerator since until Finished), w))
    by reflexivity.
  rewrite Hrun. simpl. split; [reflexivity|]. split; [reflexivity|].
  intros r H. apply (f_equal (@List.length Request)) in H.
  rewrite List.length_app in H. simpl in H. lia.
Qed.

(** The run of C2 against a server whose listing is empty (total 0). *)
Example Incidents_all_issues_no_request_empty_listing :
  take (Incidents_make_request empty_listing
          (Incidents_init "acme" "alice" "secret")) 10
    (Incidents_all (Incidents_init "acme" "alice" "secret")
       "2024-01-01" "2024-02-01") []
  = (([], Failed TypeError, mkGenerator "2024-01-01" "2024-02-01" Finished), []).
Proof. reflexivity. Qed.

(** * Further properties of the generator *)

Section MorePagination.

Context {W : Type}.
Variable mk : string -> string -> Z -> Z -> M W (pyval * pyval).

Lemma paginate_not_comparable (g : generator) (total : pyval) (w : W) (e : exn) :
  py_gt total limit = Raise e ->
  paginate mk g total w = ((Raise e, finished g), w).
Proof.
  intros H. unfold paginate. rewrite H. reflexivity.
Qed.

(** [paginate] never gets to a later page: it ends the generator where it
    stands. *)
Lemma paginate_ends (g : generator) (total : pyval) (w : W) :
  exists r, ends r (ending_for total)
            /\ forall g w, paginate mk g total w = ((r, finished g), w).
Proof.
  unfold ending_for.
  destruct total as [|b|z|q|s|l|d];
    try (exists (Raise TypeError); split; [reflexivity|];
         intros g0 w0; apply paginate_not_comparable; reflexivity).
  - exists (Ok None). split; [reflexivity|].
    intros g0 w0. apply paginate_within_limit. destruct b; reflexivity.
  - assert (Hgt : py_gt (PInt z) limit = Ok (negb (z <=? limit)))
      by (simpl; rewrite Z.ltb_antisym; reflexivity).
    destruct (z <=? limit).
    + exists (Ok None). split; [reflexivity|].
      intros g0 w0. apply paginate_within_limit. exact Hgt.
    + exists (Raise (page_count_error (PInt z))). split; [reflexivity|].
      intros g0 w0. apply paginate_beyond_limit. exact Hgt.
  - assert (Hgt : py_gt (PFloat q) limit = Ok (negb (Qle_bool q (inject_Z limit))))
      by reflexivity.
    destruct (Qle_bool q (inject_Z limit)).
    + exists (Ok None). split; [reflexivity|].
      intros g0 w0. apply paginate_within_limit. exact Hgt.
    + exists (Raise (page_count_error (PFloat q))). split; [reflexivity|].
      intros g0 w0. apply paginate_beyond_limit. exact Hgt.
Qed.

Lemma take_prefix_of_first_page (total : pyval) :
  forall n rest s u w,
    (n <= List.length rest)%nat ->
    take mk n (mkGenerator s u (FirstPage total rest)) w
    = ((firstn n rest, Stopped, mkGenerator s u (FirstPage total (skipn n rest))), w).
Proof.
  induction n as [|n IH]; intros rest s u w Hn.
  - reflexivity.
  - destruct rest as [|i rest]; [inversion Hn|].
    simpl in Hn. simpl. unfold next. simpl. unfold yield. simpl.
    rewrite IH by lia. reflexivity.
Qed.

Lemma take_finished (n : nat) (s u : string) (w : W) :
  take mk (S n) (mkGenerator s u Finished) w
  = (([], Exhausted, mkGenerator s u Finished), w).
Proof. reflexivity. Qed.

(** From inside the first page on, nothing is requested any more. *)
Lemma take_in_first_page (n : nat) :
  forall g w, in_first_page g -> snd (take mk n g w) = w.
Proof.
  induction n as [|n IH]; intros g w Hg; [reflexivity|].
  destruct g as [s u f]. unfold in_first_page in Hg. simpl in Hg.
  destruct f as [|total [|i rest]|pages rest|]; try contradiction.
  - simpl. unfold next. simpl.
    destruct (paginate_ends (mkGenerator s u (FirstPage total [])) total w)
      as (r & He & Hp).
    rewrite Hp. destruct r as [[x|]|x]; simpl in He; [contradiction| |]; reflexivity.
  - simpl. unfold next. simpl. unfold yield. simpl.
    specialize (IH (mkGenerator s u (FirstPage total rest)) w I).
    destruct (take mk n (mkGenerator s u (FirstPage total rest)) w)
      as [[[xs e] g'] w'] eqn:Ht.
    simpl in IH. simpl. exact IH.
  - reflexivity.
Qed.

Lemma fetch_pages_ends (g : generator) (pages : list Z) :
  forall w r g' w',
    fetch_pages mk g pages w = ((r, g'), w') ->
    (r = Ok None \/ exists e, r = Raise e) ->
    g' = finished g.
Proof.
  induction pages as [|page pages IH]; intros w r g' w' H Hr; simpl in H.
  - inversion H; reflexivity.
  - destruct (mk (g_since g) (g_until g) limit (page * limit) w) as [[[total incidents]|e] w1].
    + destruct (py_iter incidents) as [[|i rest]|e].
      * eapply IH; eassumption.
      * unfold yield in H. inversion H; subst.
        destruct Hr as [Hr|[e Hr]]; discriminate.
      * inversion H; reflexivity.
    + inversion H; reflexivity.
Qed.

Lemma paginate_finishes (g : generator) (total : pyval) (w : W) :
  forall r g' w',
    paginate mk g total w = ((r, g'), w') ->
    (r = Ok None \/ exists e, r = Raise e) ->
    g' = finished g.
Proof.
  intros r g' w' H Hr.
  destruct (paginate_ends g total w) as (r0 & _ & Hp).
  rewrite Hp in H. inversion H; reflexivity.
Qed.

End MorePagination.

(** X1.  Draining the generator of [all] after a successful first call:
    whatever the reported total is, the consumer receives exactly the
    incidents of the first page, in order, and [_make_request] is called
    exactly once.  How the generator then ends depends on the total alone.
    It ends normally for a boolean, for an int of at most 100 and for a
    float that is not above 100.  An int above 100 ends it with
    [TypeError], as [range] refuses the float page count, or, when the
    int is so large that [total / limit] has no float, with
    [OverflowError]; a float above 100 ends it with [TypeError]; and so
    does a total that cannot be compared with an int: [None], a string, a
    list or an object. *)
Theorem all_delivers_first_page_only :
  forall (W : Type) (mk : string -> string -> Z -> Z -> M W (pyval * pyval))
         (since until : string) (w w1 : W) (total incidents : pyval)
         (items : list pyval) (n : nat),
    mk since until limit 0 w = (Ok (total, incidents), w1) ->
    py_iter incidents = Ok items ->
    (List.length items < n)%nat ->
    take (recording mk) n (all since until) (w, [])
    = ((items,
        match total with
        | PBool _ => Exhausted
        | PInt z =>
            if z <=? 100 then Exhausted
            else if float_overflow_bound * 100 <=? Z.abs z
                 then Failed OverflowError
                 else Failed TypeError
        | PFloat q =>
            if Qle_bool q (inject_Z 100) then Exhausted else Failed TypeError
        | _ => Failed TypeError
        end,
        mkGenerator since until Finished),
       (w1, [mkCall limit 0 (Ok (total, incidents))])).
Proof.
  intros W mk since until w w1 total incidents items n Hmk Hit Hn.
  destruct (paginate_ends (recording mk) (all since until) total (w, []))
    as (r & He & Hp).
  replace (match total with
           | PBool _ => Exhausted
           | PInt z =>
               if z <=? 100 then Exhausted
               else if float_overflow_bound * 100 <=? Z.abs z
                    then Failed OverflowError
                    else Failed TypeError
           | PFloat q =>
               if Qle_bool q (inject_Z 100) then Exhausted else Failed TypeError
           | _ => Failed TypeError
           end) with (ending_for total).
  - apply (take_first_page (recording mk) total incidents items r (ending_for total));
      auto.
    apply (recording_call mk since until limit 0 w [] _ w1 Hmk).
  - unfold ending_for, int_div_overflows, limit.
    destruct total as [|b|z|q|s|l|d]; try reflexivity.
    change (Z.abs 100) with 100.
    destruct (z <=? 100); [reflexivity|].
    destruct (float_overflow_bound * 100 <=? Z.abs z); reflexivity.
Qed.

(** X1 with a total that is [None]. *)
Example all_delivers_first_page_only_null_total :
  take (recording (fun _ _ _ _ w => (Ok (PNone, PList [PInt 7; PInt 8]), w)))
    5 (all "2024-01-01" "2024-02-01") (tt, [])
  = (([PInt 7; PInt 8], Failed TypeError,
      mkGenerator "2024-01-01" "2024-02-01" Finished),
     (tt, [mkCall 100 0 (Ok (PNone, PList [PInt 7; PInt 8]))])).
Proof.
  apply (all_delivers_first_page_only unit
           (fun _ _ _ _ w => (Ok (PNone, PList [PInt 7; PInt 8]), w))
           "2024-01-01" "2024-02-01" tt tt PNone (PList [PInt 7; PInt 8])
           [PInt 7; PInt 8] 5%nat); [reflexivity|reflexivity|simpl; lia].
Defined.

(** A total of [10 ^ 400]: the division overflows. *)
Example all_overflows_on_a_huge_total :
  take (recording (fun _ _ _ _ w => (Ok (PInt (10 ^ 400), PList [PInt 7]), w)))
    5 (all "2024-01-01" "2024-02-01") (tt, [])
  = (([PInt 7], Failed OverflowError,
      mkGenerator "2024-01-01" "2024-02-01" Finished),
     (tt, [mkCall 100 0 (Ok (PInt (10 ^ 400), PList [PInt 7]))])).
Proof. vm_compute. reflexivity. Qed.

(** X2.  A consumer that takes [n] elements, with [n] at least 1 and at
    most the size of the first page, receives the first [n] incidents of
    that page in order after exactly one call of [_make_request], whatever
    total the response reports; the generator stays suspended with the
    rest of the page. *)
Theorem all_prefix_of_first_page :
  forall (W : Type) (mk : string -> string -> Z -> Z -> M W (pyval * pyval))
         (since until : string) (w w1 : W) (total incidents : pyval)
         (items : list pyval) (n : nat),
    mk since until limit 0 w = (Ok (total, incidents), w1) ->
    py_iter incidents = Ok items ->
    (0 < n <= List.length items)%nat ->
    take (recording mk) n (all since until) (w, [])
    = ((firstn n items, Stopped,
        mkGenerator since until (FirstPage total (skipn n items))),
       (w1, [mkCall limit 0 (Ok (total, incidents))])).
Proof.
  intros W mk since until w w1 total incidents items n Hmk Hit [Hn0 Hn].
  destruct n as [|n]; [inversion Hn0|].
  destruct items as [|i rest]; [inversion Hn|]. simpl in Hn.
  simpl. unfold next. simpl.
  rewrite (recording_call mk since until limit 0 w [] _ w1 Hmk), Hit.
  unfold yield. simpl.
  rewrite take_prefix_of_first_page by lia. reflexivity.
Qed.

(** X2 for three elements of a listing of 250. *)
Example all_prefix_of_first_page_three :
  take (recording (paged_backend 250)) 3 (all "2024-01-01" "2024-02-01") (tt, [])
  = (([PInt 0; PInt 1; PInt 2], Stopped,
      mkGenerator "2024-01-01" "2024-02-01"
        (FirstPage (PInt 250) (map PInt (Z_range 3 100)))),
     (tt, [mkCall 100 0 (Ok (PInt 250, PList (map PInt (Z_range 0 100))))])).
Proof.
  apply (all_prefix_of_first_page unit (paged_backend 250)
           "2024-01-01" "2024-02-01" tt tt (PInt 250)
           (PList (map PInt (Z_range 0 100))) (map PInt (Z_range 0 100)) 3%nat).
  - reflexivity.
  - reflexivity.
  - vm_compute. split; repeat constructor.
Defined.

(** X3.  When the first call of [_make_request] raises, or when the
    [incidents] it returns cannot be iterated over, the generator delivers
    nothing and passes that exception on; the one call is all that
    happened. *)
Theorem all_first_call_fails :
  forall (W : Type) (mk : string -> string -> Z -> Z -> M W (pyval * pyval))
         (since until : string) (w w1 : W) (n : nat),
    (forall e,
        mk since until limit 0 w = (Raise e, w1) ->
        take (recording mk) (S n) (all since until) (w, [])
        = (([], Failed e, mkGenerator since until Finished),
           (w1, [mkCall limit 0 (Raise e)])))
    /\ (forall total incidents e,
          mk since until limit 0 w = (Ok (total, incidents), w1) ->
          py_iter incidents = Raise e ->
          take (recording mk) (S n) (all since until) (w, [])
          = (([], Failed e, mkGenerator since until Finished),
             (w1, [mkCall limit 0 (Ok (total, incidents))]))).
Proof.
  intros W mk since until w w1 n. split.
  - intros e Hmk. simpl. unfold next. simpl.
    rewrite (recording_call mk since until limit 0 w [] _ w1 Hmk). reflexivity.
  - intros total incidents e Hmk Hit. simpl. unfold next. simpl.
    rewrite (recording_call mk since until limit 0 w [] _ w1 Hmk), Hit.
    reflexivity.
Qed.

(** X3 with a backend that cannot be reached. *)
Example all_first_call_fails_unreachable :
  take (recording unreachable_backend) 4 (all "2024-01-01" "2024-02-01") (tt, [])
  = (([], Failed URLError, mkGenerator "2024-01-01" "2024-02-01" Finished),
     (tt, [mkCall 100 0 (Raise URLError)])).
Proof.
  destruct (all_first_call_fails unit unreachable_backend
              "2024-01-01" "2024-02-01" tt tt 3%nat) as [H _].
  apply H. reflexivity.
Defined.

(** X4.  However many elements a consumer asks for and whatever
    [_make_request] answers, the generator of [all] calls [_make_request]
    at most once in its life, and that call has limit 100 and offset 0. *)
Theorem all_calls_at_most_once :
  forall (W : Type) (mk : string -> string -> Z -> Z -> M W (pyval * pyval))
         (since until : string) (w : W) (n : nat),
    let tr := snd (snd (take (recording mk) n (all since until) (w, []))) in
    tr = [] \/ exists r, tr = [mkCall limit 0 r].
Proof.
  intros W mk since until w n tr. subst tr.
  destruct n as [|n]; [left; reflexivity|]. right.
  simpl. unfold next. simpl. unfold recording at 1. simpl.
  destruct (mk since until limit 0 w) as [[[total incidents]|e] w1] eqn:Hmk.
  - exists (Ok (total, incidents)).
    destruct (py_iter incidents) as [[|i rest]|e] eqn:Hit.
    + destruct (paginate_ends (recording mk) (all since until) total
                  (w1, [mkCall limit 0 (Ok (total, incidents))]))
        as (r & He & Hp).
      rewrite Hp. destruct r as [[x|]|x]; simpl in He; [contradiction| |]; reflexivity.
    + unfold yield. simpl.
      pose proof (take_in_first_page (recording mk) n
                    (mkGenerator since until (FirstPage total rest))
                    (w1, [mkCall limit 0 (Ok (total, incidents))]) I) as Hq.
      destruct (take (recording mk) n _ _) as [[[xs e] g'] ww'].
      simpl in Hq. simpl. rewrite Hq. reflexivity.
    + reflexivity.
  - exists (Raise e). reflexivity.
Qed.

(** X5.  The generator cannot be restarted: a [next] that ends with
    [StopIteration] or with an exception leaves the generator finished,
    and [next] on a finished generator is [StopIteration] again without
    any call of [_make_request]. *)
Theorem all_finished_stays_finished :
  forall (W : Type) (mk : string -> string -> Z -> Z -> M W (pyval * pyval))
         (g : generator) (w : W),
    (forall r g' w',
        next mk g w = ((r, g'), w') ->
        (r = Ok None \/ exists e, r = Raise e) ->
        g' = finished g)
    /\ next mk (finished g) w = ((Ok None, finished g), w).
Proof.
  intros W mk g w. split; [|reflexivity].
  intros r g' w' H Hr. unfold next in H.
  destruct (g_frame g) as [|total [|i rest]|pages [|i rest]|].
  - destruct (mk (g_since g) (g_until g) limit 0 w) as [[[total incidents]|e] w1].
    + destruct (py_iter incidents) as [[|i rest]|e].
      * eapply paginate_finishes; eassumption.
      * unfold yield in H. inversion H; subst.
        destruct Hr as [Hr|[e Hr]]; discriminate.
      * inversion H; reflexivity.
    + inversion H; reflexivity.
  - eapply paginate_finishes; eassumption.
  - unfold yield in H. inversion H; subst.
    destruct Hr as [Hr|[e Hr]]; discriminate.
  - eapply fetch_pages_ends; eassumption.
  - unfold yield in H. inversion H; subst.
    destruct Hr as [Hr|[e Hr]]; discriminate.
  - inversion H; reflexivity.
Qed.

(** X5 on a generator whose single page is used up. *)
Example all_finished_stays_finished_after_page :
  mkGenerator "a" "b" Finished
  = finished (mkGenerator "a" "b" (FirstPage (PInt 1) [])).
Proof.
  destruct (all_finished_stays_finished unit (paged_backend 1)
              (mkGenerator "a" "b" (FirstPage (PInt 1) [])) tt) as [H _].
  apply (H (Ok None) _ tt); [reflexivity|left; reflexivity].
Defined.

(** X6.  With the client's own [_make_request], which raises while it
    constructs its request, nothing is ever sent: [_make_request] raises
    for every argument and leaves the request history as it is, and a
    consumer of [Incidents.all] gets the exception at its first [next]
    and no incident. *)
Theorem Incidents_all_sends_nothing :
  forall (server : list Request -> Request -> urlopen_result)
         (self : Connection) (since until : string) (lim offset : Z)
         (w : world) (n : nat),
    Incidents_make_request server self since until lim offset w
    = (Raise TypeError, w)
    /\ take (Incidents_make_request server self) (S n)
         (Incidents_all self since until) w
       = (([], Failed TypeError, mkGenerator since until Finished), w).
Proof.
  intros server self since until lim offset w n. split; reflexivity.
Qed.

(** * Further properties of [fetch] *)

(** X7.  [fetch] turns an [HTTPError] of the transport into the client's
    own error class, built from that very [HTTPError]; it never lets the
    plain [HTTPError] through.  An unreachable server is not an
    [HTTPError]: the [URLError] is passed on as it is.  One request has
    been sent in either case. *)
Theorem fetch_maps_transport_errors :
  forall (server : list Request -> Request -> urlopen_result)
         (r : Request) (w : world),
    (forall e,
        server w r = Refused e ->
        (exists err,
            SchedulesRequest_fetch server r w
            = (Raise (SchedulesErrorExn err), (w ++ [r])%list)
            /\ http err = e)
        /\ (exists err,
               IncidentsRequest_fetch server r w
               = (Raise (IncidentsErrorExn err), (w ++ [r])%list)
               /\ http err = e))
    /\ (server w r = Unreachable ->
        SchedulesRequest_fetch server r w = (Raise URLError, (w ++ [r])%list)
        /\ IncidentsRequest_fetch server r w = (Raise URLError, (w ++ [r])%list)).
Proof.
  intros server r w. split.
  - intros e Hs.
    unfold SchedulesRequest_fetch, IncidentsRequest_fetch, urlopen. rewrite Hs.
    rewrite SchedulesError_init_caught, IncidentsError_init_caught.
    split; eexists; (split; [reflexivity|]); apply try_decode_http.
  - intros Hs.
    unfold SchedulesRequest_fetch, IncidentsRequest_fetch, urlopen. rewrite Hs.
    split; reflexivity.
Qed.

(** X7 on an HTTP 502 whose body is not JSON. *)
Example fetch_maps_transport_errors_502 :
  exists err,
    IncidentsRequest_fetch (always_refuses gateway_failure) some_request []
    = (Raise (IncidentsErrorExn err), [some_request])
    /\ http err = gateway_failure.
Proof.
  destruct (fetch_maps_transport_errors (always_refuses gateway_failure)
              some_request []) as [H _].
  destruct (H gateway_failure eq_refl) as [_ Hi]. exact Hi.
Defined.

(** X8.  A response that [fetch] returns is the server's answer to this
    request: its data and headers are those of the answer, its content is
    the decoded body, and the content has no [error] among its keys (or
    elements, or characters). *)
Theorem fetch_returns_the_answer :
  forall (server : list Request -> Request -> urlopen_result)
         (r : Request) (w w' : world) (response : Response),
    SchedulesRequest_fetch server r w = (Ok response, w')
    \/ IncidentsRequest_fetch server r w = (Ok response, w') ->
    exists x,
      server w r = Responded x
      /\ rsp_data response = resp_body x
      /\ rsp_headers response = resp_headers x
      /\ json_loads (resp_body x) = Ok (content response)
      /\ py_contains "error" (content response) = Ok false
      /\ w' = (w ++ [r])%list.
Proof.
  intros server r w w' response H.
  unfold SchedulesRequest_fetch, IncidentsRequest_fetch, urlopen in H.
  destruct (server w r) as [x|e|] eqn:Hs.
  - exists x. split; [reflexivity|].
    unfold SchedulesResponse_init, IncidentsResponse_init in H.
    destruct (json_loads (resp_body x)) as [v|e] eqn:Hj;
      [|destruct H as [H|H]; discriminate].
    simpl in H.
    destruct (py_contains "error" v) as [[|]|e] eqn:Hc; simpl in H.
    + destruct H as [H|H]; discriminate.
    + assert (Hr : (Ok (mkResponse (resp_body x) (resp_headers x) v), (w ++ [r])%list)
                   = (Ok response, w'))
        by (destruct H as [H|H]; exact H).
      inversion Hr; subst. simpl. repeat split; auto.
    + destruct H as [H|H]; discriminate.
  - rewrite SchedulesError_init_caught, IncidentsError_init_caught in H.
    destruct H as [H|H]; discriminate.
  - destruct H as [H|H]; discriminate.
Qed.

(** X8 on a 200 response that carries entries. *)
Example fetch_returns_the_answer_entries :
  exists x,
    always_responds (Decodable (PDict [("entries", PList [])])) [] some_request
    = Responded x
    /\ rsp_data (mkResponse (Decodable (PDict [("entries", PList [])])) []
                   (PDict [("entries", PList [])])) = resp_body x
    /\ rsp_headers (mkResponse (Decodable (PDict [("entries", PList [])])) []
                      (PDict [("entries", PList [])])) = resp_headers x
    /\ json_loads (resp_body x) = Ok (PDict [("entries", PList [])])
    /\ py_contains "error" (PDict [("entries", PList [])]) = Ok false
    /\ [some_request] = ([] ++ [some_request])%list.
Proof.
  apply (fetch_returns_the_answer
           (always_responds (Decodable (PDict [("entries", PList [])])))
           some_request [] [some_request]
           (mkResponse (Decodable (PDict [("entries", PList [])])) []
              (PDict [("entries", PList [])]))).
  left. reflexivity.
Defined.

(** X9.  A success status does not protect [fetch] from the body: a body
    that is not JSON makes it raise the decoder's [ValueError], and a body
    that decodes to [null], a boolean or a number makes the test
    ['error' in content] raise [TypeError].  Neither is wrapped in the
    client's error class. *)
Theorem fetch_body_failures :
  forall (server : list Request -> Request -> urlopen_result)
         (r : Request) (w : world) (x : HTTPResponse),
    server w r = Responded x ->
    (forall e,
        json_loads (resp_body x) = Raise e ->
        SchedulesRequest_fetch server r w = (Raise e, (w ++ [r])%list)
        /\ IncidentsRequest_fetch server r w = (Raise e, (w ++ [r])%list))
    /\ (forall v,
          json_loads (resp_body x) = Ok v ->
          py_iter v = Raise TypeError ->
          SchedulesRequest_fetch server r w = (Raise TypeError, (w ++ [r])%list)
          /\ IncidentsRequest_fetch server r w = (Raise TypeError, (w ++ [r])%list)).
Proof.
  intros server r w x Hs.
  unfold SchedulesRequest_fetch, IncidentsRequest_fetch, urlopen. rewrite Hs.
  unfold SchedulesResponse_init, IncidentsResponse_init. split.
  - intros e Hj. rewrite Hj. split; reflexivity.
  - intros v Hj Hv. rewrite Hj.
    destruct v; simpl in Hv; try discriminate; split; reflexivity.
Qed.

(** X9 on a 200 response whose body is an HTML page. *)
Example fetch_body_failures_html :
  SchedulesRequest_fetch (always_responds (Undecodable "<html></html>"))
    some_request []
  = (Raise ValueError, [some_request]).
Proof.
  destruct (fetch_body_failures (always_responds (Undecodable "<html></html>"))
              some_request [] (mkHTTPResponse [] (Undecodable "<html></html>"))
              eq_refl) as [H _].
  destruct (H ValueError eq_refl) as [Hsch _]. exact Hsch.
Defined.

(** * Dicts *)

Lemma dict_lookup_absent {A} (d : list (string * A)) (k : string) :
  ~ In k (dict_keys d) -> dict_lookup d k = None.
Proof.
  induction d as [|[k' v'] d IH]; intros H; [reflexivity|].
  simpl in *. destruct (String.eqb_spec k' k) as [->|Hne].
  - exfalso. apply H. left. reflexivity.
  - apply IH. intros Hin. apply H. right. exact Hin.
Qed.

Lemma dict_lookup_set_same {A} (d : list (string * A)) (k : string) (v : A) :
  dict_lookup (dict_set d k v) k = Some v.
Proof.
  induction d as [|[k' v'] d IH]; simpl.
  - rewrite String.eqb_refl. reflexivity.
  - destruct (String.eqb_spec k' k) as [->|Hne]; simpl.
    + rewrite String.eqb_refl. reflexivity.
    + apply String.eqb_neq in Hne. rewrite Hne. exact IH.
Qed.

Lemma dict_lookup_set_other {A} (d : list (string * A)) (k k0 : string) (v : A) :
  k <> k0 -> dict_lookup (dict_set d k v) k0 = dict_lookup d k0.
Proof.
  intros Hk. pose proof (proj2 (String.eqb_neq k k0) Hk) as Hkb.
  induction d as [|[k' v'] d IH]; simpl.
  - rewrite Hkb. reflexivity.
  - destruct (String.eqb_spec k' k) as [->|Hne]; simpl.
    + rewrite Hkb. reflexivity.
    + rewrite IH. reflexivity.
Qed.

Lemma dict_set_keys {A} (d : list (string * A)) (k : string) (v : A) :
  dict_keys (dict_set d k v)
  = if has_key d k then dict_keys d else (dict_keys d ++ [k])%list.
Proof.
  unfold has_key. induction d as [|[k' v'] d IH]; simpl; [reflexivity|].
  destruct (String.eqb_spec k' k) as [->|Hne]; simpl; [reflexivity|].
  rewrite IH. destruct (dict_lookup d k); reflexivity.
Qed.

Lemma has_key_In {A} (d : list (string * A)) (k : string) :
  has_key d k = false -> ~ In k (dict_keys d).
Proof.
  unfold has_key. induction d as [|[k' v'] d IH]; simpl; intros H Hin.
  - exact Hin.
  - destruct (String.eqb_spec k' k) as [->|Hne]; [discriminate|].
    destruct Hin as [Hin|Hin]; [contradiction|]. apply IH; assumption.
Qed.

Lemma dict_set_NoDup {A} (d : list (string * A)) (k : string) (v : A) :
  NoDup (dict_keys d) -> NoDup (dict_keys (dict_set d k v)).
Proof.
  intros Hd. rewrite dict_set_keys.
  destruct (has_key d k) eqn:Hk; [exact Hd|].
  apply NoDup_app; [exact Hd|repeat constructor; intros []|].
  intros x Hx [Hx'|[]]. subst x. apply (has_key_In d k Hk Hx).
Qed.

Lemma dict_set_no_null (d : dict) (k : string) (v : pyval) :
  no_null d -> is_none v = false -> no_null (dict_set d k v).
Proof.
  unfold no_null. intros Hd Hv. induction d as [|[k' v'] d IH]; simpl.
  - constructor; [exact Hv|constructor].
  - inversion Hd; subst.
    destruct (String.eqb k' k); constructor; auto.
Qed.

(** X10.  Assignment to a dict key, as in [event[k] = v] and
    [params.update]: the key then holds the new value, every other key
    holds what it held, an existing key keeps its place and a new key goes
    last, and no key comes to occur twice. *)
Theorem dict_set_spec :
  forall (d : dict) (k : string) (v : pyval),
    dict_lookup (dict_set d k v) k = Some v
    /\ (forall k0, k <> k0 -> dict_lookup (dict_set d k v) k0 = dict_lookup d k0)
    /\ dict_keys (dict_set d k v)
       = (if has_key d k then dict_keys d else (dict_keys d ++ [k])%list)
    /\ (NoDup (dict_keys d) -> NoDup (dict_keys (dict_set d k v))).
Proof.
  intros d k v. split; [apply dict_lookup_set_same|].
  split; [intros k0 Hk; apply dict_lookup_set_other; exact Hk|].
  split; [apply dict_set_keys|apply dict_set_NoDup].
Qed.

(** X10 on the parameters of [entries] with [overflow]. *)
Example dict_set_spec_overflow :
  NoDup (dict_keys (dict_set [("since", PStr "a"); ("until", PStr "b")]
                      "overflow" (PBool true))).
Proof.
  destruct (dict_set_spec [("since", PStr "a"); ("until", PStr "b")]
              "overflow" (PBool true)) as (_ & _ & _ & H).
  apply H. simpl. repeat constructor; simpl; intuition discriminate.
Defined.

(** * Further properties of the Events client *)

Lemma add_fields_NoDup (kwargs : list (string * pyval)) :
  forall event : dict,
    NoDup (dict_keys event) -> NoDup (dict_keys (add_fields event kwargs)).
Proof.
  unfold add_fields.
  induction kwargs as [|[k v] kwargs IH]; intros event He; simpl; [exact He|].
  apply IH. destruct (is_none v); [exact He|apply dict_set_NoDup; exact He].
Qed.

Lemma add_fields_no_null (kwargs : list (string * pyval)) :
  forall event : dict, no_null event -> no_null (add_fields event kwargs).
Proof.
  unfold add_fields.
  induction kwargs as [|[k v] kwargs IH]; intros event He; simpl; [exact He|].
  apply IH. destruct (is_none v) eqn:Hv; [exact He|].
  apply dict_set_no_null; assumption.
Qed.

Lemma add_fields_lookup (kwargs : list (string * pyval)) :
  forall (event : dict) (k : string),
    NoDup (dict_keys kwargs) ->
    dict_lookup (add_fields event kwargs) k
    = match dict_lookup kwargs k with
      | Some v => if is_none v then dict_lookup event k else Some v
      | None => dict_lookup event k
      end.
Proof.
  unfold add_fields.
  induction kwargs as [|[k0 v0] kwargs IH]; intros event k Hnd; simpl;
    [reflexivity|].
  simpl in Hnd. inversion Hnd as [|? ? Hnotin Hnd']; subst.
  rewrite IH by exact Hnd'.
  destruct (String.eqb_spec k0 k) as [->|Hne].
  - rewrite (dict_lookup_absent kwargs k Hnotin).
    destruct (is_none v0); [reflexivity|apply dict_lookup_set_same].
  - destruct (is_none v0); [reflexivity|].
    rewrite (dict_lookup_set_other event k0 k v0 Hne). reflexivity.
Qed.

(** X11.  The body [_request] sends, for any keyword arguments at all:
    no key occurs twice and no value is [None]. *)
Theorem events_body_is_well_formed :
  forall (self : PagerDuty) (event_type : string)
         (kwargs : list (string * pyval)),
    NoDup (dict_keys (build_event self event_type kwargs))
    /\ no_null (build_event self event_type kwargs).
Proof.
  intros self event_type kwargs. unfold build_event. split.
  - apply add_fields_NoDup. simpl.
    repeat constructor; simpl; intuition discriminate.
  - apply add_fields_no_null. repeat constructor.
Qed.

(** X12.  The body [_request] sends, for keyword arguments as a call can
    bind them to [**kwargs]: distinct names, none of them [self] or
    [event_type], the names of the method's own parameters.  A name whose
    value is not [None] holds that value, also when the name is
    [service_key], which then replaces the client's key; every other key
    holds what the two fixed entries give it.  In particular [event_type]
    is always the operation. *)
Theorem events_body_lookup :
  forall (self : PagerDuty) (event_type : string)
         (kwargs : list (string * pyval)) (k : string),
    NoDup (dict_keys kwargs) ->
    ~ In "self" (dict_keys kwargs) ->
    ~ In "event_type" (dict_keys kwargs) ->
    let fixed := [("service_key", PStr (service_key self));
                  ("event_type", PStr event_type)] in
    dict_lookup (build_event self event_type kwargs) k
    = match dict_lookup kwargs k with
      | Some v => if is_none v then dict_lookup fixed k else Some v
      | None => dict_lookup fixed k
      end
    /\ dict_lookup (build_event self event_type kwargs) "event_type"
       = Some (PStr event_type).
Proof.
  intros self event_type kwargs k Hnd Hself Het fixed. unfold build_event.
  split.
  - apply add_fields_lookup. exact Hnd.
  - rewrite add_fields_lookup by exact Hnd.
    rewrite (dict_lookup_absent kwargs "event_type" Het). reflexivity.
Qed.

(** X12 for the service key of an [acknowledge] event. *)
Example events_body_lookup_service_key :
  dict_lookup (build_event acme "acknowledge"
                 (three_fields PNone (PStr "srv01/HTTP") PNone)) "service_key"
  = Some (PStr "0123456789abcdef").
Proof.
  apply (events_body_lookup acme "acknowledge"
           (three_fields PNone (PStr "srv01/HTTP") PNone) "service_key").
  - simpl. repeat constructor; simpl; intuition discriminate.
  - simpl. intuition discriminate.
  - simpl. intuition discriminate.
Defined.

(** X13.  What [_request] raises when there is no usable result, one
    request having been sent each time: an unreachable server gives the
    transport's [URLError]; a body that is not JSON gives the decoder's
    error, also under an HTTP 400, whose [HTTPError] is then lost; a body
    that decodes to something that is not an object gives [TypeError];
    an object without [status] gives [KeyError] on [status]. *)
Theorem events_unusable_results :
  forall (server : list Request -> Request -> urlopen_result)
         (self : PagerDuty) (event_type : string)
         (kwargs : list (string * pyval)) (w : world),
    let r := event_request self event_type kwargs in
    let run := PagerDuty_request server self event_type kwargs w in
    (server w r = Unreachable -> run = (Raise URLError, (w ++ [r])%list))
    /\ (forall b,
          answered server w r b ->
          (forall e, json_loads b = Raise e -> run = (Raise e, (w ++ [r])%list))
          /\ (forall v,
                json_loads b = Ok v ->
                (forall d, v <> PDict d) ->
                run = (Raise TypeError, (w ++ [r])%list))
          /\ (forall d,
                json_loads b = Ok (PDict d) ->
                dict_lookup d "status" = None ->
                run = (Raise (KeyError "status"), (w ++ [r])%list))).
Proof.
  intros server self event_type kwargs w r run. split.
  - intros Hs. subst run r.
    unfold PagerDuty_request, bind, post_event, urlopen.
    fold (event_request self event_type kwargs). rewrite Hs. reflexivity.
  - intros b Ha. split; [|split].
    + intros e Hj. subst run r.
      unfold PagerDuty_request, bind, post_event, urlopen.
      fold (event_request self event_type kwargs).
      destruct Ha as [(x & Hs & Hb)|(exc & Hs & Hc & Hb)]; rewrite Hs.
      * rewrite Hb. unfold lift. rewrite Hj. reflexivity.
      * apply Z.eqb_eq in Hc. rewrite Hc. simpl.
        rewrite Hb. unfold lift. rewrite Hj. reflexivity.
    + intros v Hj Hv. subst run r.
      rewrite (PagerDuty_request_answered server self event_type kwargs w b v Ha Hj).
      destruct v; try reflexivity. exfalso. apply (Hv d). reflexivity.
    + intros d Hj Hs. subst run r.
      rewrite (PagerDuty_request_answered server self event_type kwargs w b _ Ha Hj).
      unfold interpret_result. simpl. rewrite Hs. reflexivity.
Qed.

(** X13 on an HTTP 400 whose body is an empty object. *)
Example events_unusable_results_no_status :
  PagerDuty_request (bad_request (PDict [])) acme "trigger"
    (three_fields (PStr "x") PNone PNone) []
  = (Raise (KeyError "status"), [trigger_x]).
Proof.
  destruct (events_unusable_results (bad_request (PDict [])) acme "trigger"
              (three_fields (PStr "x") PNone PNone) []) as [_ H].
  destruct (H (Decodable (PDict []))) as (_ & _ & Hstatus).
  - right. eexists. repeat split.
  - apply (Hstatus []); reflexivity.
Defined.

(** * Printing errors and requests *)

Lemma append_empty_r (s : string) : s ++ "" = s.
Proof.
  induction s as [|c s IH]; simpl; [reflexivity|]. rewrite IH. reflexivity.
Qed.

Lemma try_decode_keeps_assigned (self : ApiError) :
  (statuscode self <> None -> statuscode (try_decode self) <> None)
  /\ (statusdesc self <> None -> statusdesc (try_decode self) <> None)
  /\ (errormessage self <> None -> errormessage (try_decode self) <> None).
Proof.
  unfold try_decode.
  destruct (j <~ json_loads (fp (http self)) ;;
            error <~ py_getitem j "error" ;;
            c <~ py_getitem error "code" ;;
            Ok (error, c))%res as [[error c]|x]; [|auto].
  destruct (errors <~ py_get error "errors" (PList []) ;;
            py_join " | " errors)%res as [d|x];
    [|simpl; repeat split; auto; discriminate].
  destruct (py_getitem error "message") as [m|x];
    simpl; repeat split; auto; discriminate.
Qed.

(** X14.  Printing a [SchedulesError] works only when the whole error
    object could be read from the body.  [__repr__] (and [__str__], which
    returns it) reads [statuscode], [statusdesc] and [errormessage] in
    this order, and the constructor assigns them only while it decodes the
    body: when no code could be read the call raises [AttributeError] on
    [statuscode], when the errors could not be joined on [statusdesc],
    when the message is missing on [errormessage].  With a complete error
    object the text is built from the three structured values. *)
Theorem SchedulesError_repr_needs_complete_body :
  forall (py_str : pyval -> string) (e : HTTPError),
  exists err,
    SchedulesError_init (ObjHTTPError e) = Ok err
    /\ (forall x,
          error_code e = Raise x ->
          SchedulesError_repr py_str err = Raise (AttributeError "statuscode"))
    /\ (forall error c x,
          error_code e = Ok (error, c) ->
          error_desc error = Raise x ->
          SchedulesError_repr py_str err = Raise (AttributeError "statusdesc"))
    /\ (forall error c d x,
          error_code e = Ok (error, c) ->
          error_desc error = Ok d ->
          py_getitem error "message" = Raise x ->
          SchedulesError_repr py_str err = Raise (AttributeError "errormessage"))
    /\ (forall error c d m,
          error_code e = Ok (error, c) ->
          error_desc error = Ok d ->
          py_getitem error "message" = Ok m ->
          SchedulesError_repr py_str err
          = Ok ("Pagerduty Schedules Error: HTTP " ++ py_str c ++ " " ++ py_str d
                ++ " returned with message, " ++ dquote ++ py_str m ++ dquote)).
Proof.
  intros py_str e. eexists. split; [apply SchedulesError_init_caught|].
  split; [|split; [|split]].
  - intros x H.
    rewrite (try_decode_no_code (mkApiError e None None None) x H). reflexivity.
  - intros error c x H Hd.
    rewrite (try_decode_code (mkApiError e None None None) error c H), Hd.
    reflexivity.
  - intros error c d x H Hd Hm.
    rewrite (try_decode_code (mkApiError e None None None) error c H), Hd, Hm.
    reflexivity.
  - intros error c d m H Hd Hm.
    rewrite (try_decode_code (mkApiError e None None None) error c H), Hd, Hm.
    reflexivity.
Qed.

(** X14 on an HTTP 502 whose body is not JSON. *)
Example SchedulesError_repr_needs_complete_body_502 :
  exists err,
    SchedulesError_init (ObjHTTPError gateway_failure) = Ok err
    /\ SchedulesError_repr scalar_str err = Raise (AttributeError "statuscode").
Proof.
  destruct (SchedulesError_repr_needs_complete_body scalar_str gateway_failure)
    as (err & Hinit & Hcode & _).
  exists err. split; [exact Hinit|].
  apply (Hcode ValueError). reflexivity.
Defined.

(** X15.  Printing an [IncidentsError] built from a caught [HTTPError]
    never fails, since its constructor assigns the three attributes before
    it decodes anything; when no code can be read from the body the text
    shows the HTTP code, the HTTP message and an empty message. *)
Theorem IncidentsError_repr_never_fails :
  forall (py_str : pyval -> string) (e : HTTPError),
  exists err s,
    IncidentsError_init (ObjHTTPError e) = Ok err
    /\ IncidentsError_repr py_str err = Ok s
    /\ (forall x,
          error_code e = Raise x ->
          s = "Pagerduty Incidents Error: HTTP " ++ py_str (PInt (code e)) ++ " "
              ++ py_str (PStr (msg e)) ++ " returned with message, "
              ++ dquote ++ py_str (PStr "") ++ dquote).
Proof.
  intros py_str e.
  destruct (try_decode_keeps_assigned (coarse e)) as (Hc & Hd & Hm).
  destruct (statuscode (try_decode (coarse e))) as [c|] eqn:Ec;
    [|exfalso; apply Hc; [discriminate|reflexivity]].
  destruct (statusdesc (try_decode (coarse e))) as [d|] eqn:Ed;
    [|exfalso; apply Hd; [discriminate|reflexivity]].
  destruct (errormessage (try_decode (coarse e))) as [m|] eqn:Em;
    [|exfalso; apply Hm; [discriminate|reflexivity]].
  exists (try_decode (coarse e)). eexists.
  split; [apply IncidentsError_init_caught|]. split.
  - unfold IncidentsError_repr, error_line. rewrite Ec, Ed, Em. reflexivity.
  - intros x H.
    rewrite (try_decode_no_code (coarse e) x H) in Ec, Ed, Em.
    simpl in Ec, Ed, Em. inversion Ec; inversion Ed; inversion Em. reflexivity.
Qed.

(** X15 on an HTTP 502 whose body is not JSON. *)
Example IncidentsError_repr_never_fails_502 :
  exists err s,
    IncidentsError_init (ObjHTTPError gateway_failure) = Ok err
    /\ IncidentsError_repr scalar_str err = Ok s
    /\ s = "Pagerduty Incidents Error: HTTP 502 Bad Gateway returned with message, "
           ++ dquote ++ dquote.
Proof.
  destruct (IncidentsError_repr_never_fails scalar_str gateway_failure)
    as (err & s & Hinit & Hrepr & Hs).
  exists err, s. split; [exact Hinit|]. split; [exact Hrepr|].
  rewrite (Hs ValueError eq_refl). reflexivity.
Defined.

(** X16.  [__repr__] of a [SchedulesRequest] or an [IncidentsRequest]
    raises [TypeError] for every request: its text has [{0}] and [{1}]
    and is given to [%], which finds no conversion for its two
    arguments. *)
Theorem request_repr_always_raises :
  forall (py_repr : pyval -> string) (self : Request),
    SchedulesRequest_repr py_repr self = Raise TypeError
    /\ IncidentsRequest_repr py_repr self = Raise TypeError.
Proof.
  intros py_repr self. split; reflexivity.
Qed.

Section ExceptionText.

Variable py_str : pyval -> string.
Variable py_repr : pyval -> string.

Lemma status_line (status message : pyval) :
  percent_format "%s: %s"
    [arg_of_val py_str py_repr status; arg_of_val py_str py_repr message]
  = Ok (py_str status ++ ": " ++ py_str message).
Proof.
  simpl. rewrite append_empty_r. reflexivity.
Qed.

Lemma bullet_lines_map (items : list pyval) :
  bullet_lines py_str py_repr items
  = Ok (map (fun x => "* " ++ py_str x) items).
Proof.
  induction items as [|x items IH]; [reflexivity|].
  simpl. simpl in IH. rewrite IH, append_empty_r. reflexivity.
Qed.

End ExceptionText.

(** X17.  The text of a [PagerDutyException].  Without errors (an empty
    list, [None], or anything else that counts as false) it is
    [status: message].  With a list of errors it is that line followed by
    one line [* error] per error, in order.  With errors that count as
    true and cannot be iterated over, a non-zero number or [True],
    [__str__] itself raises [TypeError]. *)
Theorem PagerDutyException_str_lines :
  forall (py_str py_repr : pyval -> string) (status message errors : pyval),
    (py_truthy errors = false ->
     PagerDutyException_str py_str py_repr status message errors
     = Ok (py_str status ++ ": " ++ py_str message))
    /\ (forall es,
          errors = PList es -> es <> [] ->
          PagerDutyException_str py_str py_repr status message errors
          = Ok ((py_str status ++ ": " ++ py_str message) ++ newline
                ++ String.concat newline (map (fun x => "* " ++ py_str x) es)))
    /\ (py_truthy errors = true ->
        py_iter errors = Raise TypeError ->
        PagerDutyException_str py_str py_repr status message errors
        = Raise TypeError).
Proof.
  intros py_str py_repr status message errors.
  unfold PagerDutyException_str. rewrite status_line. simpl.
  split; [|split].
  - intros H. rewrite H. reflexivity.
  - intros es He Hne. subst errors.
    destruct es as [|x es]; [contradiction|].
    cbn [py_truthy py_iter rbind]. rewrite bullet_lines_map. reflexivity.
  - intros Ht Hi. rewrite Ht, Hi. reflexivity.
Qed.

(** X17 on the exception of an HTTP 400 with two errors. *)
Example PagerDutyException_str_lines_two :
  PagerDutyException_str scalar_str scalar_repr (PStr "invalid event")
    (PStr "Event object is invalid")
    (PList [PStr "Service key is required"; PStr "Description is missing"])
  = Ok ("invalid event: Event object is invalid" ++ newline
        ++ "* Service key is required" ++ newline ++ "* Description is missing").
Proof.
  destruct (PagerDutyException_str_lines scalar_str scalar_repr
              (PStr "invalid event") (PStr "Event object is invalid")
              (PList [PStr "Service key is required"; PStr "Description is missing"]))
    as (_ & H & _).
  rewrite (H [PStr "Service key is required"; PStr "Description is missing"]
             eq_refl); [reflexivity|discriminate].
Defined.

Example PagerDutyException_repr_failure :
  PagerDutyException_repr scalar_str scalar_repr (PStr "failure") (PStr "m") (PInt 0)
  = Ok "PagerDutyException('failure', 'm', 0)".
Proof. reflexivity. Qed.

(** X18.  Each [fetch] sends exactly one request, the one it was called
    on, whatever the server answers and whatever [fetch] then returns or
    raises. *)
Theorem fetch_sends_exactly_one_request :
  forall (server : list Request -> Request -> urlopen_result)
         (r : Request) (w : world),
    snd (SchedulesRequest_fetch server r w) = (w ++ [r])%list
    /\ snd (IncidentsRequest_fetch server r w) = (w ++ [r])%list.
Proof.
  intros server r w. apply fetch_is_one_round_trip.
Qed.
